(** * Laskuri conversion engine of trades_to_laskuri.py

    A shallow embedding of [process_trades_for_laskuri] (src/trades_to_laskuri.py):
    the Kraken trade rows of one coin are converted to the Finnish
    "Laskuri" layout, with a running balance, FIFO purchase cost and
    the 20% deemed acquisition cost.

    Numbers: the Python code uses floats.  The engine is modelled twice:
    over exact rationals [Q], and in module [F64] with each arithmetic
    operation rounded to the nearest binary64 double ([f64]), as the code
    computes it; doubles are kept as the rationals they denote.  The
    explicit decimal rounding that the code performs through [f"{x:.8f}"] /
    [f"{x:.2f}"] followed by [float(...)] is modelled exactly (round to
    nearest, ties to even on the exact value, as Python's fixed-point
    formatting does).  The strftime conversion of the time column and the
    CSV file I/O are not modelled.

    Further sections model the ledger conversion (ledger_to_trades.py,
    filter_ledger.py), the weekend rule and historical lookup of
    forex_date.py, and the placement of the rows in the xlsx template by
    csv_to_xlsx_for_laskuri (trades_to_laskuri_xl.py). *)

From Stdlib Require Import QArith Qround Qminmax Qabs Lia List String Ascii Bool ZArith.
Import ListNotations.
Open Scope Q_scope.

(** Python's [a < b] on numbers. *)
Definition Qlt_bool (a b : Q) : bool := negb (Qle_bool b a).

(** ** Decimal formatting: [f"{x:.Nf}"] *)

(** Rounding of [n / den] to an integer, to nearest, ties to even. *)
Definition round_half_even_div (n : Z) (den : Z) : Z :=
  let q := (n / den)%Z in
  let r := (n mod den)%Z in
  match Z.compare (2 * r) den with
  | Lt => q
  | Gt => (q + 1)%Z
  | Eq => if Z.even q then q else (q + 1)%Z
  end.

(** The integer [x * 10^d] rounded, i.e. the digits printed by [f"{x:.df}"]. *)
Definition scaled_digits (d : nat) (x : Q) : Z :=
  round_half_even_div (Qnum x * 10 ^ Z.of_nat d) (Zpos (Qden x)).

(** The value of [float(f"{x:.df}")]. *)
Definition fixed (d : nat) (x : Q) : Q :=
  scaled_digits d x # Z.to_pos (10 ^ Z.of_nat d).

Definition digit_char (n : Z) : ascii := ascii_of_nat (48 + Z.to_nat n).

Fixpoint z_digits (fuel : nat) (n : Z) (acc : string) : string :=
  match fuel with
  | O => acc
  | S f =>
      let acc' := String (digit_char (n mod 10)) acc in
      if (n <? 10)%Z then acc' else z_digits f (n / 10)%Z acc'
  end.

(** Decimal digits of a non-negative integer. *)
Definition z_to_string (n : Z) : string :=
  z_digits (S (Z.to_nat (Z.log2 n))) n EmptyString.

Fixpoint pad_zeros (k : nat) : string :=
  match k with O => EmptyString | S k' => String "0" (pad_zeros k') end.

Definition pad_left (d : nat) (s : string) : string :=
  pad_zeros (d - String.length s) ++ s.

(** [f"{x:.df}"] for [d > 0]. *)
Definition format_fixed (d : nat) (x : Q) : string :=
  let m := Z.abs (scaled_digits d x) in
  let p := (10 ^ Z.of_nat d)%Z in
  (if Qlt_bool x 0 then "-" else "") ++
  z_to_string (m / p)%Z ++ "." ++ pad_left d (z_to_string (m mod p)%Z).

(** [s.replace('.', ',')] *)
Fixpoint replace_dot (s : string) : string :=
  match s with
  | EmptyString => EmptyString
  | String c s' =>
      String (if Ascii.eqb c "." then "," else c) (replace_dot s')
  end.

(** [f"{x:.2f} €".replace('.', ',')] *)
Definition fmt_eur (x : Q) : string := replace_dot (format_fixed 2 x ++ " €").

(** [f"{x:.8f}".replace('.', ',')] *)
Definition fmt_amount (x : Q) : string := replace_dot (format_fixed 8 x).

(** Python's [min(a, b)] and [max(a, b)]: the first argument unless the
    second is strictly smaller (resp. larger). *)
Definition py_min (a b : Q) : Q := if Qlt_bool b a then b else a.
Definition py_max (a b : Q) : Q := if Qlt_bool a b then b else a.

(** ** Data model *)

(** The values of the 'TAPAHTUMA - EVENT' column:
    [{'buy': 'Osto', 'sell': 'Myynti'}]; any other type maps to NaN ([None]). *)
Inductive event := Osto | Myynti.

Definition type_map (t : string) : option event :=
  if String.eqb t "buy" then Some Osto
  else if String.eqb t "sell" then Some Myynti
  else None.

(** One row of the trades CSV (the columns the function reads). *)
Record trade := mk_trade {
  pair : string;
  type_ : string;
  vol : Q;
  price : Q;
  cost : Q;
  fee : Q
}.

(** [dataset['pair'].str.contains(coin)] *)
Definition str_contains (pat s : string) : bool :=
  match String.index 0 pat s with Some _ => true | None => false end.

(** The numeric values a converted row carries into Steps 2-5:
    ['amount_numeric'] (the amount printed with 8 decimals and parsed
    back), the price per unit and the total (printed with 2 decimals and
    parsed back) and the unformatted fee. *)
Record row := mk_row {
  event_of : option event;
  amount_numeric : Q;
  price_per_unit : Q;
  total : Q;
  row_fee : Q
}.

(** Step 1: [f"{x:.8f}"] / [f"{x:.2f} €"] and back through [float]. *)
Definition convert (t : trade) : row :=
  mk_row (type_map (type_ t)) (fixed 8 (vol t)) (fixed 2 (price t))
         (fixed 2 (cost t)) (fee t).

(** ** Step 2: CURRENCY REMAINING *)

Fixpoint currency_remaining_from (currency_remaining : Q) (rows : list row)
  : list Q :=
  match rows with
  | [] => []
  | r :: rs =>
      let cr :=
        match event_of r with
        | Some Osto => currency_remaining + amount_numeric r
        | Some Myynti => currency_remaining - amount_numeric r
        | None => currency_remaining
        end in
      cr :: currency_remaining_from cr rs
  end.

Definition currency_remaining_list (rows : list row) : list Q :=
  currency_remaining_from 0 rows.

(** ** Steps 3-5: FIFO purchase cost *)

(** An entry [{'remaining': amount, 'price': price_per_unit}] of
    [purchase_queue]. *)
Record purchase := mk_purchase { remaining : Q; pprice : Q }.

(** The variables of the FIFO [while] loop. *)
Record fifo_state := mk_fifo {
  remaining_amount : Q;
  purchase_cost : Q;
  purchase_queue : list purchase
}.

(** [while remaining_amount > 0 and purchase_queue:] *)
Definition fifo_cond (st : fifo_state) : bool :=
  Qlt_bool 0 (remaining_amount st) &&
  match purchase_queue st with [] => false | _ => true end.

(** One iteration of the loop body. *)
Definition fifo_body (st : fifo_state) : fifo_state :=
  match purchase_queue st with
  | [] => st
  | purchase :: rest =>
      let used_amount := py_min (remaining_amount st) (remaining purchase) in
      let purchase_cost' := purchase_cost st + used_amount * pprice purchase in
      let purchase' := mk_purchase (remaining purchase - used_amount) (pprice purchase) in
      let remaining_amount' := remaining_amount st - used_amount in
      if Qle_bool (remaining purchase') 0
      then mk_fifo remaining_amount' purchase_cost' rest          (* pop(0) *)
      else mk_fifo remaining_amount' purchase_cost' (purchase' :: rest)
  end.

(** The loop, iterated at most [fuel] times. *)
Fixpoint fifo_while (fuel : nat) (st : fifo_state) : fifo_state :=
  match fuel with
  | O => st
  | S f => if fifo_cond st then fifo_while f (fifo_body st) else st
  end.

(** The loop run from [purchase_cost = 0], [remaining_amount = amount].
    [length queue + 1] iterations always suffice (see [fifo_match_exits]). *)
Definition fifo_match (amount : Q) (queue : list purchase) : fifo_state :=
  fifo_while (S (List.length queue)) (mk_fifo amount 0 queue).

(** The hard-coded 20% rate of [price_per_unit * 0.2 * amount]. *)
Definition DEEMED_RATE : Q := 2 # 10.

(** What the code computes for a sale ('Myynti') row. *)
Record sale := mk_sale {
  sale_purchase_cost : Q;
  cost_plus_fee : Q;
  deemed_acq_cost : Q;
  applicable_cost : Q;
  profit_or_loss : Q;
  combined_str : string
}.

Definition process_sell (queue : list purchase) (r : row) : list purchase * sale :=
  let st := fifo_match (amount_numeric r) queue in
  let purchase_cost := purchase_cost st in
  let cost_plus_fee := purchase_cost + row_fee r in
  let deemed_acq_cost := price_per_unit r * DEEMED_RATE * amount_numeric r in
  let applicable_cost := py_max cost_plus_fee deemed_acq_cost in
  let profit_or_loss := total r - applicable_cost in
  let purchase_cost_str := fmt_eur purchase_cost in
  let deemed_acq_cost_str := fmt_eur deemed_acq_cost in
  let combined_str :=
    if Qlt_bool cost_plus_fee deemed_acq_cost
    then ("(" ++ purchase_cost_str ++ ") / " ++ deemed_acq_cost_str)%string
    else (purchase_cost_str ++ " / (" ++ deemed_acq_cost_str ++ ")")%string in
  (purchase_queue st,
   mk_sale purchase_cost cost_plus_fee deemed_acq_cost applicable_cost
           profit_or_loss combined_str).

(** One iteration of the [for idx, row in converted_data.iterrows()] loop
    of Steps 3-5: the new queue and, for a sale, its computed values. *)
Definition process_row (queue : list purchase) (r : row)
  : list purchase * option sale :=
  match event_of r with
  | Some Osto => (queue ++ [mk_purchase (amount_numeric r) (price_per_unit r)], None)
  | Some Myynti => let (q', s) := process_sell queue r in (q', Some s)
  | None => (queue, None)
  end.

Fixpoint laskuri_loop (queue : list purchase) (rows : list row)
  : list (option sale) * list purchase :=
  match rows with
  | [] => ([], queue)
  | r :: rs =>
      let (q1, o) := process_row queue r in
      let (os, qf) := laskuri_loop q1 rs in
      (o :: os, qf)
  end.

(** ** The written CSV and the whole function *)

(** A row of the written CSV (the time column aside); the helper columns
    ['amount_numeric'], ['currency_remaining'] and ['DEEMED ACQ COST'] are
    dropped before writing. *)
Record out_row := mk_out {
  out_event : option event;
  out_amount : string;
  out_price : string;
  out_total : string;
  out_fee : Q;
  out_source : string;
  out_remaining_1 : string;
  out_cost : string;
  out_profit_loss : string;
  out_remaining_2 : string
}.

Definition output_row (t : trade) (cr : Q) (o : option sale) : out_row :=
  mk_out (type_map (type_ t)) (fmt_amount (vol t)) (fmt_eur (price t))
    (fmt_eur (cost t)) (fee t) "Kraken" (fmt_amount cr)
    (match o with Some s => combined_str s | None => EmptyString end)
    (match o with Some s => fmt_eur (profit_or_loss s) | None => EmptyString end)
    (fmt_amount cr).

Fixpoint build_output (ts : list trade) (crs : list Q) (os : list (option sale))
  : list out_row :=
  match ts, crs, os with
  | t :: ts', cr :: crs', o :: os' => output_row t cr o :: build_output ts' crs' os'
  | _, _, _ => []
  end.

(** The whole function, for a coin that has no regular-expression
    metacharacters (pandas' [str.contains] reads [coin] as a pattern; for
    such a coin it is the substring test [str_contains]) and a selection
    that is not empty (with no matching row, the [.str] accessor of Step 1
    fails on the empty numeric column: the function catches the error,
    returns [None] and writes no file). *)
Definition process_trades_for_laskuri (coin : string) (dataset : list trade)
  : list out_row :=
  let coin_data := filter (fun t => str_contains coin (pair t)) dataset in
  let rows := map convert coin_data in
  let crs := currency_remaining_list rows in
  let (sales, _) := laskuri_loop [] rows in
  build_output coin_data crs sales.

(** Steps 1-5 and the written rows, for the rows [coin_data] that the
    filter selected. *)
Definition laskuri_output (coin_data : list trade) : list out_row :=
  let rows := map convert coin_data in
  let crs := currency_remaining_list rows in
  let (sales, _) := laskuri_loop [] rows in
  build_output coin_data crs sales.

(** The engine run on converted rows, from the empty [purchase_queue = []]. *)
Definition run_rows (rows : list row) : list (option sale) * list purchase :=
  laskuri_loop [] rows.

(** Sums used to state conservation. *)
Definition signed_amount (r : row) : Q :=
  match event_of r with
  | Some Osto => amount_numeric r
  | Some Myynti => - amount_numeric r
  | None => 0
  end.

Fixpoint sum_q (l : list Q) : Q :=
  match l with [] => 0 | x :: l' => x + sum_q l' end.


Definition queue_total (q : list purchase) : Q := sum_q (map remaining q).

(** The quantity a sale leaves unmatched: the final [remaining_amount]
    of its FIFO loop, which the code computes and then discards. *)
Fixpoint sell_residuals (queue : list purchase) (rows : list row) : list Q :=
  match rows with
  | [] => []
  | r :: rs =>
      let rest := sell_residuals (fst (process_row queue r)) rs in
      match event_of r with
      | Some Myynti => remaining_amount (fifo_match (amount_numeric r) queue) :: rest
      | _ => rest
      end
  end.

Definition buy (q p : Q) : row := mk_row (Some Osto) q p (q * p) 0.
Definition sell (q p f : Q) : row := mk_row (Some Myynti) q p (q * p) f.

(** ** Binary64 arithmetic

    The Python code computes with floats.  [f64 x] is the IEEE 754 double
    nearest to [x] (ties to even), with the subnormal range below 2^-1022
    (overflow to infinity does not arise for these amounts and is not
    modelled).  A double is kept as the rational it denotes. *)

(** [2^e] as a rational, for any integer [e]. *)
Definition pow2 (e : Z) : Q :=
  if (0 <=? e)%Z then inject_Z (2 ^ e) else 1 # Z.to_pos (2 ^ (- e)).

(** [floor (log2 (n / d))] for [n > 0]. *)
Definition flog2 (n : Z) (d : positive) : Z :=
  let k := (Z.log2 n - Z.log2 (Zpos d))%Z in
  if (Zpos d * 2 ^ Z.max k 0 <=? n * 2 ^ Z.max (- k) 0)%Z then k else (k - 1)%Z.

(** Rounding to the nearest double: 53 significant bits, exponent of the
    last bit at least -1074. *)
Definition f64 (x : Q) : Q :=
  let y := Qred x in
  let n := Qnum y in
  let d := Qden y in
  let e := Z.max (flog2 (Z.abs n) d - 52) (-1074) in
  let m := if (e <=? 0)%Z then round_half_even_div (n * 2 ^ (- e)) (Zpos d)
           else round_half_even_div n (Zpos d * 2 ^ e) in
  inject_Z m * pow2 e.

(** Float addition, subtraction and multiplication. *)
Definition fadd (a b : Q) : Q := f64 (a + b).
Definition fsub (a b : Q) : Q := f64 (a - b).
Definition fmul (a b : Q) : Q := f64 (a * b).

(** The engine of Steps 1-5 as the code runs it, each arithmetic
    operation rounded to a double.  Comparisons ([>], [<=], [min], [max])
    are exact on doubles; they are those of the model above. *)
Module F64.

(** Step 1: [float(f"{x:.8f}")] and [float(f"{x:.2f}")] parse the printed
    decimals to the nearest double; the fee is the double read from the
    file. *)
Definition convert (t : trade) : row :=
  mk_row (type_map (type_ t)) (f64 (fixed 8 (vol t))) (f64 (fixed 2 (price t)))
         (f64 (fixed 2 (cost t))) (fee t).

(** Step 2: [currency_remaining += amount] / [-= amount]. *)
Fixpoint currency_remaining_from (currency_remaining : Q) (rows : list row)
  : list Q :=
  match rows with
  | [] => []
  | r :: rs =>
      let cr :=
        match event_of r with
        | Some Osto => fadd currency_remaining (amount_numeric r)
        | Some Myynti => fsub currency_remaining (amount_numeric r)
        | None => currency_remaining
        end in
      cr :: currency_remaining_from cr rs
  end.

Definition currency_remaining_list (rows : list row) : list Q :=
  currency_remaining_from 0 rows.

(** One iteration of the FIFO loop body. *)
Definition fifo_body (st : fifo_state) : fifo_state :=
  match purchase_queue st with
  | [] => st
  | purchase :: rest =>
      let used_amount := py_min (remaining_amount st) (remaining purchase) in
      let purchase_cost' := fadd (purchase_cost st) (fmul used_amount (pprice purchase)) in
      let purchase' := mk_purchase (fsub (remaining purchase) used_amount) (pprice purchase) in
      let remaining_amount' := fsub (remaining_amount st) used_amount in
      if Qle_bool (remaining purchase') 0
      then mk_fifo remaining_amount' purchase_cost' rest          (* pop(0) *)
      else mk_fifo remaining_amount' purchase_cost' (purchase' :: rest)
  end.

Fixpoint fifo_while (fuel : nat) (st : fifo_state) : fifo_state :=
  match fuel with
  | O => st
  | S f => if fifo_cond st then fifo_while f (fifo_body st) else st
  end.

(** As in exact arithmetic, each iteration either pops the head lot
    ([x - x] is exactly 0 in floats) or ends the loop, so
    [length queue + 1] iterations suffice. *)
Definition fifo_match (amount : Q) (queue : list purchase) : fifo_state :=
  fifo_while (S (List.length queue)) (mk_fifo amount 0 queue).

(** The literal [0.2]. *)
Definition DEEMED_RATE : Q := f64 (2 # 10).

Definition process_sell (queue : list purchase) (r : row) : list purchase * sale :=
  let st := fifo_match (amount_numeric r) queue in
  let purchase_cost := purchase_cost st in
  let cost_plus_fee := fadd purchase_cost (row_fee r) in
  let deemed_acq_cost := fmul (fmul (price_per_unit r) DEEMED_RATE) (amount_numeric r) in
  let applicable_cost := py_max cost_plus_fee deemed_acq_cost in
  let profit_or_loss := fsub (total r) applicable_cost in
  let purchase_cost_str := fmt_eur purchase_cost in
  let deemed_acq_cost_str := fmt_eur deemed_acq_cost in
  let combined_str :=
    if Qlt_bool cost_plus_fee deemed_acq_cost
    then ("(" ++ purchase_cost_str ++ ") / " ++ deemed_acq_cost_str)%string
    else (purchase_cost_str ++ " / (" ++ deemed_acq_cost_str ++ ")")%string in
  (purchase_queue st,
   mk_sale purchase_cost cost_plus_fee deemed_acq_cost applicable_cost
           profit_or_loss combined_str).

Definition process_row (queue : list purchase) (r : row)
  : list purchase * option sale :=
  match event_of r with
  | Some Osto => (queue ++ [mk_purchase (amount_numeric r) (price_per_unit r)], None)
  | Some Myynti => let (q', s) := process_sell queue r in (q', Some s)
  | None => (queue, None)
  end.

Fixpoint laskuri_loop (queue : list purchase) (rows : list row)
  : list (option sale) * list purchase :=
  match rows with
  | [] => ([], queue)
  | r :: rs =>
      let (q1, o) := process_row queue r in
      let (os, qf) := laskuri_loop q1 rs in
      (o :: os, qf)
  end.

Definition run_rows (rows : list row) : list (option sale) * list purchase :=
  laskuri_loop [] rows.

(** The final [remaining_amount] of each sale's FIFO loop. *)
Fixpoint sell_residuals (queue : list purchase) (rows : list row) : list Q :=
  match rows with
  | [] => []
  | r :: rs =>
      let rest := sell_residuals (fst (process_row queue r)) rs in
      match event_of r with
      | Some Myynti => remaining_amount (fifo_match (amount_numeric r) queue) :: rest
      | _ => rest
      end
  end.

End F64.

(** ** The FIFO loop, as the specification words it

    "While remaining_to_match > 0 and queue is non-empty: peek the head
    lot; used = min(remaining_to_match, head.remaining_quantity);
    fifo_cost_basis += used * head.unit_price; head.remaining_quantity -=
    used; remaining_to_match -= used; if head.remaining_quantity == 0, pop
    it from the queue." *)
Fixpoint spec_fifo (remaining_to_match fifo_cost_basis : Q) (queue : list purchase)
  : fifo_state :=
  match queue with
  | [] => mk_fifo remaining_to_match fifo_cost_basis []
  | head :: rest =>
      if Qlt_bool 0 remaining_to_match then
        let used := Qmin remaining_to_match (remaining head) in
        let head' := mk_purchase (remaining head - used) (pprice head) in
        if Qeq_bool (remaining head') 0
        then spec_fifo (remaining_to_match - used)
               (fifo_cost_basis + used * pprice head) rest
        else mk_fifo (remaining_to_match - used)
               (fifo_cost_basis + used * pprice head) (head' :: rest)
      else mk_fifo remaining_to_match fifo_cost_basis queue
  end.

(** The source loop unrolled structurally (equal to [fifo_while], see
    [fifo_while_rec]). *)
Fixpoint fifo_rec (ra pc : Q) (queue : list purchase) : fifo_state :=
  match queue with
  | [] => mk_fifo ra pc []
  | purchase :: rest =>
      if Qlt_bool 0 ra then
        let used_amount := py_min ra (remaining purchase) in
        let purchase' := mk_purchase (remaining purchase - used_amount) (pprice purchase) in
        if Qle_bool (remaining purchase') 0
        then fifo_rec (ra - used_amount) (pc + used_amount * pprice purchase) rest
        else mk_fifo (ra - used_amount) (pc + used_amount * pprice purchase)
               (purchase' :: rest)
      else mk_fifo ra pc queue
  end.


(** * ledger_to_trades.py and filter_ledger.py

    A ledger row, with the columns the scripts read.  The result of
    [ledger_to_trades] is the list of rows written to the output file,
    before the final sort by time ([None] when nothing is written); the
    constant empty columns (ordertype, margin, ...) and the file I/O are not
    modelled. *)

Record ledger_row := mk_ledger {
  l_txid : string;
  l_refid : string;
  l_time : string;
  l_type : string;
  l_asset : string;
  l_amount : Q;
  l_fee : Q
}.

(** A row of trades.csv (the two columns read). *)
Record trades_csv_row := mk_tcsv { tc_txid : string; tc_ordertxid : string }.

(** A generated trades row (its non-constant columns). *)
Record gen_row := mk_gen {
  g_txid : string;
  g_ordertxid : string;
  g_pair : string;
  g_aclass : string;
  g_time : string;
  g_type : string;
  g_price : Q;
  g_cost : Q;
  g_fee : Q;
  g_vol : Q;
  g_ledgers : string
}.

Definition coins : list string :=
  ["BTC"; "LTC"; "XLM"; "XMR"; "ETH"; "ETC"; "REP"; "XRP";
   "ZEC"; "BCH"; "BSV"; "SGB"; "FLR"; "STRK"; "EIGEN"]%string.

Definition fiats : list string := ["EUR"; "GBP"]%string.

(** Python's [s in l] for a list of strings. *)
Definition in_list (s : string) (l : list string) : bool := existsb (String.eqb s) l.

(** [groupby("refid")]: the distinct keys, in sorted order. *)
Fixpoint insert_key (k : string) (ks : list string) : list string :=
  match ks with
  | [] => [k]
  | k' :: ks' => if String.leb k k' then k :: ks else k' :: insert_key k ks'
  end.

Definition group_keys (rows : list ledger_row) : list string :=
  fold_right insert_key [] (nodup string_dec (map l_refid rows)).

(** The group of a key: its rows, in their original order. *)
Definition group (k : string) (rows : list ledger_row) : list ledger_row :=
  filter (fun r => String.eqb (l_refid r) k) rows.

(** [matching_trade['ordertxid'].iloc[0] if not matching_trade.empty else ""] *)
Definition find_ordertxid (tc : list trades_csv_row) (refid : string) : string :=
  match find (fun t => String.eqb (tc_txid t) refid) tc with
  | Some t => tc_ordertxid t
  | None => EmptyString
  end.

(** [abs(a) / abs(b) if b != 0 else 0], the float division rounded to a
    double. *)
Definition ratio (a b : Q) : Q :=
  if negb (Qeq_bool b 0) then f64 (Qabs a / Qabs b) else 0.

(** The [for index, row in group.iterrows()] loop choosing [fiat_row] and
    [crypto_row] (the last matching row wins). *)
Definition pick_trade_step (acc : option ledger_row * option ledger_row) (r : ledger_row)
  : option ledger_row * option ledger_row :=
  let (f, c) := acc in
  if in_list (l_asset r) fiats then (Some r, c)
  else if in_list (l_asset r) coins then (f, Some r)
  else (f, c).

Definition pick_trade_rows (g : list ledger_row) : option ledger_row * option ledger_row :=
  fold_left pick_trade_step g (None, None).

(** The body of the first [for refid, group in grouped_trades] loop:
    [None] for [continue], [Some row] for [output_data.append(row)]. *)
Definition trade_row (tc : list trades_csv_row) (refid : string) (g : list ledger_row)
  : option gen_row :=
  match g with
  | [r0; r1] =>
      match pick_trade_rows g with
      | (Some fiat_row, Some crypto_row) =>
          let trade_type :=
            if Qlt_bool (l_amount fiat_row) 0 then Some "buy"%string
            else if Qlt_bool 0 (l_amount fiat_row) then Some "sell"%string
            else None in
          match trade_type with
          | None => None
          | Some ttype =>
              Some (mk_gen refid (find_ordertxid tc refid)
                      (l_asset crypto_row ++ "/" ++ l_asset fiat_row)
                      (if in_list (l_asset fiat_row) fiats then "forex" else "currency")
                      (l_time r0) ttype
                      (ratio (l_amount fiat_row) (l_amount crypto_row))
                      (Qabs (l_amount fiat_row))
                      (l_fee fiat_row + l_fee crypto_row)
                      (Qabs (l_amount crypto_row))
                      (l_txid r1 ++ "," ++ l_txid r0))
          end
      | _ => None
      end
  | _ => None
  end.

(** The choice of [spend_row] and [receive_row]. *)
Definition pick_swap_step (acc : option ledger_row * option ledger_row) (r : ledger_row)
  : option ledger_row * option ledger_row :=
  let (s, v) := acc in
  if String.eqb (l_type r) "spend" && in_list (l_asset r) coins then (Some r, v)
  else if String.eqb (l_type r) "receive" && in_list (l_asset r) coins then (s, Some r)
  else (s, v).

Definition pick_swap_rows (g : list ledger_row) : option ledger_row * option ledger_row :=
  fold_left pick_swap_step g (None, None).

(** The body of the [for refid, group in grouped_spend_receive] loop. *)
Definition swap_row (tc : list trades_csv_row) (refid : string) (g : list ledger_row)
  : option gen_row :=
  match g with
  | [r0; r1] =>
      match pick_swap_rows g with
      | (Some spend_row, Some receive_row) =>
          Some (mk_gen refid (find_ordertxid tc refid)
                  (l_asset spend_row ++ "/" ++ l_asset receive_row)
                  "currency" (l_time r0) "trade"
                  (ratio (l_amount spend_row) (l_amount receive_row))
                  (Qabs (l_amount spend_row))
                  (l_fee spend_row + l_fee receive_row)
                  (Qabs (l_amount receive_row))
                  (l_txid r1 ++ "," ++ l_txid r0))
      | _ => None
      end
  | _ => None
  end.

(** A loop over the groups, collecting the appended rows. *)
Definition grouped_rows (body : string -> list ledger_row -> option gen_row)
    (rows : list ledger_row) : list gen_row :=
  flat_map (fun k => match body k (group k rows) with Some o => [o] | None => [] end)
    (group_keys rows).

Definition ledger_to_trades (df_ledger : list ledger_row) (df_trades_csv : list trades_csv_row)
  : option (list gen_row) :=
  let df_trades := filter (fun r => String.eqb (l_type r) "trade") df_ledger in
  match df_trades with
  | [] => None
  | _ =>
      let df_spend_receive :=
        filter (fun r => in_list (l_type r) ["spend"; "receive"]%string) df_ledger in
      let output_data :=
        grouped_rows (trade_row df_trades_csv) df_trades ++
        grouped_rows (swap_row df_trades_csv) df_spend_receive in
      match output_data with
      | [] => None
      | _ => Some output_data
      end
  end.

(** A generated row read back as a row of trades.csv. *)
Definition gen_to_trade (g : gen_row) : trade :=
  mk_trade (g_pair g) (g_type g) (g_vol g) (g_price g) (g_cost g) (g_fee g).

(** filter_ledger.py *)
Definition fiat_currencies : list string := ["EUR"; "GBP"]%string.

Definition filter_ledger (df : list ledger_row) : list ledger_row :=
  filter (fun r => negb (String.eqb (l_type r) "withdrawal" &&
                         in_list (l_asset r) fiat_currencies)) df.

(** * forex_date.py *)

(** A UTC datetime: Python's proleptic ordinal of the day (1 for
    0001-01-01, a Monday) and the time of day. *)
Record datetime := mk_datetime {
  ordinal : Z;
  hour : Z;
  minute : Z;
  second : Z;
  microsecond : Z
}.

(** [datetime.weekday()]: Monday is 0, Sunday is 6. *)
Definition weekday (d : datetime) : Z := ((ordinal d + 6) mod 7)%Z.

Definition valid_time (d : datetime) : Prop :=
  (0 <= hour d < 24)%Z /\ (0 <= minute d < 60)%Z /\
  (0 <= second d < 60)%Z /\ (0 <= microsecond d < 1000000)%Z.

(** Microseconds since the start of ordinal day 0. *)
Definition timestamp_us (d : datetime) : Z :=
  ((((ordinal d * 24 + hour d) * 60 + minute d) * 60 + second d) * 1000000
   + microsecond d)%Z.

(** [getfx_datetime] of [get_forex_rate_at_datetime]. *)
Definition getfx_datetime (target_datetime : datetime) : datetime :=
  if Z.leb 5 (weekday target_datetime) then
    let lastfx_datetime :=
      mk_datetime (ordinal target_datetime - (weekday target_datetime - 4))
        (hour target_datetime) (minute target_datetime)
        (second target_datetime) (microsecond target_datetime) in
    mk_datetime (ordinal lastfx_datetime) 23 59 59 0
  else target_datetime.

(** [pair.endswith(suffix)] *)
Fixpoint ends_with (suffix s : string) : bool :=
  String.eqb s suffix ||
  match s with EmptyString => false | String _ s' => ends_with suffix s' end.

(** The names bound in the module forex_date ([import yfinance as yf] is
    commented out). *)
Definition forex_date_globals : list string :=
  ["pd"; "StringIO"; "datetime"; "timedelta"; "pytz"; "requests";
   "get_forex_rate_at_datetime"; "get_historical_forex_data";
   "test_forex_timepoint"; "test_forex_timerange"]%string.

Inductive py_error := ValueError (msg : string) | NameError (name : string).

Section HistoricalForex.

(** [datetime.strptime(s, '%Y-%m-%d')] succeeds. *)
Variable strptime_ok : string -> bool.
(** The DataFrame returned by [yf.download], its [.empty] and the
    ['Adj Close'] renaming. *)
Variable frame : Type.
Variable yf_download : string -> string -> string -> frame.
Variable frame_empty : frame -> bool.
Variable rename_adj_close : frame -> frame.

(** The [try] body: an exception or the value returned. *)
Definition historical_body (pair start_date end_date : string) : py_error + option frame :=
  if negb (ends_with "=X" pair) then
    inl (ValueError "Invalid currency pair format. It should be a string ending with '=X' (e.g., 'GBPEUR=X').")
  else if negb (strptime_ok start_date && strptime_ok end_date) then
    inl (ValueError "Incorrect date format, should be YYYY-MM-DD")
  else if in_list "yf" forex_date_globals then
    let data := yf_download pair start_date end_date in
    inr (if frame_empty data then None else Some (rename_adj_close data))
  else inl (NameError "yf").

(** Both [except] clauses print and return [None]. *)
Definition get_historical_forex_data (pair start_date end_date : string) : option frame :=
  match historical_body pair start_date end_date with
  | inl _ => None
  | inr r => r
  end.

End HistoricalForex.

(** * csv_to_xlsx_for_laskuri (trades_to_laskuri_xl.py)

    The placement of the data rows in the template sheet and the formula
    written to L3 (cell styles, preserved formulas and file I/O are not
    modelled).  [start_row = 16] is assigned but never read: openpyxl's
    [ws.append] writes each row below the sheet's current last row. *)

(** The last row before the appends: the template's last used row, raised
    by the cells that [ws["H10"] = coin] and the [ws.iter_rows] over
    B4:E13 create (openpyxl creates a missing cell when it is accessed). *)
Definition rows_before_append (template_max_row : Z) : Z :=
  Z.max (Z.max template_max_row 10) 13.

(** [for row in dataframe_to_rows(df, ...): ws.append(row)]: the row
    numbers the rows land on. *)
Fixpoint append_rows (current_row : Z) (rows : list (list string)) : list (Z * list string) :=
  match rows with
  | [] => []
  | r :: rs => ((current_row + 1)%Z, r) :: append_rows (current_row + 1) rs
  end.

(** [ws.max_row] raised by one appended row (a row with no value creates
    no cell). *)
Definition max_row_step (acc : Z) (ir : Z * list string) : Z :=
  match snd ir with
  | [] => acc
  | _ => Z.max acc (fst ir)
  end.

(** [last_row = ws.max_row] after the appends. *)
Definition xlsx_last_row (template_max_row : Z) (rows : list (list string)) : Z :=
  fold_left max_row_step (append_rows (rows_before_append template_max_row) rows)
    (rows_before_append template_max_row).

(** [f'=SUMIF(C16:C{last_row},E5,K16:K{last_row})'] *)
Definition l3_formula (last_row : Z) : string :=
  "=SUMIF(C16:C" ++ z_to_string last_row ++ ",E5,K16:K" ++ z_to_string last_row ++ ")".

(** ** Arithmetic facts *)

Lemma Qlt_bool_iff (a b : Q) : Qlt_bool a b = true <-> a < b.
Proof.
  unfold Qlt_bool. rewrite negb_true_iff. split; intro H.
  - apply Qnot_le_lt. intro H'. apply Qle_bool_iff in H'. congruence.
  - destruct (Qle_bool b a) eqn:E; [|reflexivity].
    apply Qle_bool_iff in E. exfalso. apply (Qlt_not_le a b); assumption.
Qed.

Lemma Qlt_bool_false (a b : Q) : Qlt_bool a b = false <-> b <= a.
Proof.
  unfold Qlt_bool. rewrite negb_false_iff. apply Qle_bool_iff.
Qed.

Lemma py_min_Qmin (a b : Q) : py_min a b = Qmin a b.
Proof.
  unfold py_min, Qmin, GenericMinMax.gmin.
  destruct (Qlt_bool b a) eqn:E.
  - apply Qlt_bool_iff in E. rewrite (proj1 (Qgt_alt a b) E). reflexivity.
  - apply Qlt_bool_false in E.
    destruct (Qcompare a b) eqn:C; try reflexivity.
    apply Qgt_alt in C. exfalso. apply (Qlt_not_le b a); assumption.
Qed.

(** After one iteration the head lot is never negative. *)
Lemma head_after_nonneg (ra p : Q) : 0 <= p - py_min ra p.
Proof.
  unfold py_min.
  destruct (Qlt_bool p ra) eqn:E.
  - setoid_replace (p - p) with 0 by ring. apply Qle_refl.
  - apply Qlt_bool_false in E. apply Qle_minus_iff in E.
    setoid_replace (p - ra) with (p + - ra) by ring. exact E.
Qed.

(** When the head lot survives an iteration, the sale is fully matched. *)
Lemma kept_head_exhausts (ra p : Q) :
  0 < p - py_min ra p -> ra - py_min ra p == 0.
Proof.
  unfold py_min. destruct (Qlt_bool p ra) eqn:E; intro H.
  - exfalso. setoid_replace (p - p) with 0 in H by ring. apply (Qlt_irrefl 0 H).
  - ring.
Qed.

Lemma Qle_bool_0_eq (x : Q) : 0 <= x -> Qle_bool x 0 = Qeq_bool x 0.
Proof.
  intro Hx. destruct (Qle_bool x 0) eqn:E1; destruct (Qeq_bool x 0) eqn:E2;
    try reflexivity.
  - apply Qle_bool_iff in E1. exfalso.
    assert (H : x == 0) by (apply Qle_antisym; assumption).
    apply Qeq_bool_iff in H. congruence.
  - apply Qeq_bool_iff in E2. exfalso.
    assert (H : x <= 0) by (rewrite E2; apply Qle_refl).
    apply Qle_bool_iff in H. congruence.
Qed.

Lemma Qle_bool_false_lt (x : Q) : Qle_bool x 0 = false -> 0 < x.
Proof.
  intro E. apply Qnot_le_lt. intro H. apply Qle_bool_iff in H. congruence.
Qed.

(** ** The loop: termination within the fuel, and its structural form *)

Lemma fifo_while_stop (f : nat) (st : fifo_state) :
  fifo_cond st = false -> fifo_while f st = st.
Proof. intro H. destruct f; simpl; [reflexivity | rewrite H; reflexivity]. Qed.

Lemma fifo_while_rec (q : list purchase) :
  forall (f : nat) (ra pc : Q), (List.length q < f)%nat ->
  fifo_while f (mk_fifo ra pc q) = fifo_rec ra pc q.
Proof.
  induction q as [|p rest IH]; intros f ra pc Hf;
    (destruct f as [|f]; [simpl in Hf; lia|]).
  - simpl. unfold fifo_cond; simpl. rewrite andb_false_r. reflexivity.
  - cbn [fifo_while fifo_rec]. unfold fifo_cond; cbn [purchase_queue remaining_amount].
    rewrite andb_true_r.
    destruct (Qlt_bool 0 ra) eqn:Era; [|reflexivity].
    unfold fifo_body; cbn [purchase_queue remaining_amount purchase_cost remaining pprice].
    destruct (Qle_bool (remaining p - py_min ra (remaining p)) 0) eqn:Ep.
    + apply IH. simpl in Hf. lia.
    + apply fifo_while_stop. unfold fifo_cond; cbn [remaining_amount].
      apply Qle_bool_false_lt, kept_head_exhausts in Ep.
      assert (Hn : Qlt_bool 0 (ra - py_min ra (remaining p)) = false).
      { apply Qlt_bool_false. rewrite Ep. apply Qle_refl. }
      rewrite Hn. reflexivity.
Qed.

Lemma fifo_match_rec (amount : Q) (queue : list purchase) :
  fifo_match amount queue = fifo_rec amount 0 queue.
Proof. unfold fifo_match. apply fifo_while_rec. lia. Qed.

(** The loop guard is false once [fifo_match] returns: the fuel never
    cuts the Python loop short. *)
Lemma fifo_match_exits (amount : Q) (queue : list purchase) :
  fifo_cond (fifo_match amount queue) = false.
Proof.
  rewrite fifo_match_rec. generalize 0 as pc. revert amount.
  induction queue as [|p rest IH]; intros ra pc.
  - unfold fifo_cond; simpl. apply andb_false_r.
  - cbn [fifo_rec]. destruct (Qlt_bool 0 ra) eqn:Era.
    + cbn [remaining].
      destruct (Qle_bool (remaining p - py_min ra (remaining p)) 0) eqn:Ep.
      * apply IH.
      * unfold fifo_cond; cbn [remaining_amount].
        apply Qle_bool_false_lt, kept_head_exhausts in Ep.
        assert (Hn : Qlt_bool 0 (ra - py_min ra (remaining p)) = false).
        { apply Qlt_bool_false. rewrite Ep. apply Qle_refl. }
        rewrite Hn. reflexivity.
    + unfold fifo_cond; cbn [remaining_amount]. rewrite Era. reflexivity.
Qed.

(** The source's [<= 0] pop test and the specification's [== 0] agree. *)
Lemma fifo_rec_spec_fifo (q : list purchase) :
  forall ra pc, fifo_rec ra pc q = spec_fifo ra pc q.
Proof.
  induction q as [|p rest IH]; intros ra pc; [reflexivity|].
  cbn [fifo_rec spec_fifo]. destruct (Qlt_bool 0 ra); [|reflexivity].
  cbn [remaining pprice]. rewrite <- py_min_Qmin.
  rewrite (Qle_bool_0_eq _ (head_after_nonneg ra (remaining p))).
  destruct (Qeq_bool _ 0); [apply IH | reflexivity].
Qed.

(** ** Quantity conservation inside the loop *)

Lemma fifo_rec_conserves (q : list purchase) :
  forall ra pc,
  queue_total (purchase_queue (fifo_rec ra pc q)) - remaining_amount (fifo_rec ra pc q)
  == queue_total q - ra.
Proof.
  induction q as [|p rest IH]; intros ra pc; [cbn; ring|].
  cbn [fifo_rec]. destruct (Qlt_bool 0 ra); [|reflexivity].
  cbn [remaining pprice].
  destruct (Qle_bool (remaining p - py_min ra (remaining p)) 0) eqn:Ep.
  - rewrite IH. apply Qle_bool_iff in Ep.
    assert (Hz : remaining p - py_min ra (remaining p) == 0)
      by (apply Qle_antisym; [exact Ep | apply head_after_nonneg]).
    unfold queue_total; cbn [map sum_q]. fold (queue_total rest).
    setoid_replace (remaining p) with (py_min ra (remaining p)) at 2
      by (rewrite <- (Qplus_0_l (py_min _ _)), <- Hz; ring).
    ring.
  - unfold queue_total; cbn [map sum_q purchase_queue remaining_amount remaining].
    ring.
Qed.




(** ** Frame of the loop: only a head prefix of the queue is touched *)

Lemma fifo_rec_frame (q : list purchase) :
  forall ra pc,
  exists pre post, q = pre ++ post /\
    (purchase_queue (fifo_rec ra pc q) = post \/
     exists p rest x, post = p :: rest /\
       purchase_queue (fifo_rec ra pc q) = mk_purchase x (pprice p) :: rest /\
       x < remaining p).
Proof.
  induction q as [|p rest IH]; intros ra pc.
  - exists [], []. split; [reflexivity | left; reflexivity].
  - cbn [fifo_rec]. destruct (Qlt_bool 0 ra) eqn:Era.
    + cbn [remaining pprice].
      destruct (Qle_bool (remaining p - py_min ra (remaining p)) 0) eqn:Ep.
      * destruct (IH (ra - py_min ra (remaining p))
                     (pc + py_min ra (remaining p) * pprice p)) as [pre [post [Hq H]]].
        exists (p :: pre), post. split; [rewrite Hq; reflexivity | exact H].
      * exists [], (p :: rest). split; [reflexivity|]. right.
        exists p, rest, (remaining p - py_min ra (remaining p)).
        split; [reflexivity | split; [reflexivity|]].
        apply Qle_bool_false_lt, kept_head_exhausts in Ep.
        apply Qlt_bool_iff in Era.
        assert (Hu : py_min ra (remaining p) == ra).
        { setoid_replace (py_min ra (remaining p))
            with (ra - (ra - py_min ra (remaining p))) by ring.
          rewrite Ep. ring. }
        setoid_replace (remaining p - py_min ra (remaining p))
          with (remaining p + - ra) by (rewrite Hu; ring).
        rewrite <- (Qplus_0_r (remaining p)) at 2.
        apply Qplus_lt_r. apply Qopp_lt_compat in Era. exact Era.
    + exists [], (p :: rest). split; [reflexivity | left; reflexivity].
Qed.

(** ** Whole-run accounting *)

Lemma queue_total_app (q1 q2 : list purchase) :
  queue_total (q1 ++ q2) == queue_total q1 + queue_total q2.
Proof.
  unfold queue_total. rewrite map_app. induction (map remaining q1); cbn.
  - ring.
  - rewrite IHl. ring.
Qed.

Lemma last_cons_default {A : Type} (l : list A) :
  forall (a d : A), last (a :: l) d = last l a.
Proof.
  induction l as [|b l IH]; intros a d; [reflexivity|].
  change (last (b :: l) d = last (b :: l) a). rewrite !IH. reflexivity.
Qed.

Lemma py_max_Qmax (a b : Q) : py_max a b = Qmax a b.
Proof.
  unfold py_max, Qmax, GenericMinMax.gmax.
  destruct (Qlt_bool a b) eqn:E.
  - apply Qlt_bool_iff in E. rewrite (proj1 (Qlt_alt a b) E). reflexivity.
  - apply Qlt_bool_false in E.
    destruct (Qcompare a b) eqn:C; try reflexivity.
    apply Qlt_alt in C. exfalso. apply (Qlt_not_le a b); assumption.
Qed.

(** ** Rounding error of Step 1 *)

Lemma round_half_even_div_err (n den : Z) :
  (0 < den)%Z -> (Z.abs (2 * (round_half_even_div n den * den - n)) <= den)%Z.
Proof.
  intro Hd. unfold round_half_even_div.
  pose proof (Z.div_mod n den ltac:(lia)) as Hn.
  pose proof (Z.mod_pos_bound n den Hd) as Hr.
  set (q := (n / den)%Z) in *. set (r := (n mod den)%Z) in *.
  destruct (Z.compare_spec (2 * r) den) as [E|E|E];
    [destruct (Z.even q)|..]; nia.
Qed.

Lemma fixed_error (d : nat) (x : Q) :
  Qabs (fixed d x - x) <= 1 # (2 * Z.to_pos (10 ^ Z.of_nat d)).
Proof.
  destruct x as [N D]. unfold fixed, scaled_digits. cbn [Qnum Qden].
  assert (HP : (0 < 10 ^ Z.of_nat d)%Z) by (apply Z.pow_pos_nonneg; lia).
  pose proof (round_half_even_div_err (N * 10 ^ Z.of_nat d) (Zpos D) ltac:(lia)) as He.
  set (P := (10 ^ Z.of_nat d)%Z) in *.
  set (R := round_half_even_div (N * P) (Zpos D)) in *.
  unfold Qabs, Qminus, Qplus, Qopp, Qle. cbn [Qnum Qden].
  rewrite !Pos2Z.inj_mul, Z2Pos.id by exact HP.
  rewrite Z.abs_mul in He. replace (Z.abs 2) with 2%Z in He by reflexivity.
  replace (R * Zpos D + - N * P)%Z with (R * Zpos D - N * P)%Z by ring.
  replace (R * Zpos D - N * P)%Z with (R * Zpos D - N * P)%Z in He by ring.
  nia.
Qed.

(** ** Facts on [f64] *)

Lemma round_half_even_div_nonneg (n den : Z) :
  (0 <= n)%Z -> (0 < den)%Z -> (0 <= round_half_even_div n den)%Z.
Proof.
  intros Hn Hd. unfold round_half_even_div.
  pose proof (Z.div_pos n den Hn Hd).
  destruct (Z.compare _ _); [destruct (Z.even _)|..]; lia.
Qed.

(** [f64] depends only on the value of its argument. *)
Lemma f64_proper (x y : Q) : x == y -> f64 x = f64 y.
Proof. intro H. unfold f64. rewrite (Qred_complete x y H). reflexivity. Qed.

Lemma f64_zero : f64 0 == 0.
Proof. reflexivity. Qed.

Lemma pow2_nonneg (e : Z) : 0 <= pow2 e.
Proof.
  unfold pow2. destruct (0 <=? e)%Z eqn:E.
  - change 0 with (inject_Z 0). rewrite <- Zle_Qle. apply Z.pow_nonneg. lia.
  - unfold Qle; cbn [Qnum Qden]. lia.
Qed.

Lemma f64_nonneg_core (n : Z) (d : positive) (e : Z) :
  (0 <= n)%Z ->
  0 <= inject_Z (if (e <=? 0)%Z then round_half_even_div (n * 2 ^ (- e)) (Zpos d)
                 else round_half_even_div n (Zpos d * 2 ^ e)) * pow2 e.
Proof.
  intro Hn. apply Qmult_le_0_compat; [|apply pow2_nonneg].
  change 0 with (inject_Z 0). rewrite <- Zle_Qle.
  destruct (e <=? 0)%Z eqn:E; apply round_half_even_div_nonneg.
  - apply Z.mul_nonneg_nonneg; [exact Hn | apply Z.pow_nonneg; lia].
  - lia.
  - exact Hn.
  - apply Z.leb_gt in E. pose proof (Z.pow_pos_nonneg 2 e ltac:(lia) ltac:(lia)). lia.
Qed.

Lemma f64_nonneg (x : Q) : 0 <= x -> 0 <= f64 x.
Proof.
  intro Hx. unfold f64. cbv zeta. apply f64_nonneg_core.
  pose proof (Qred_correct x) as Hr. rewrite <- Hr in Hx.
  unfold Qle in Hx; cbn [Qnum Qden] in Hx. lia.
Qed.

(** * Claims *)

(** ** C1: oversold sales *)




(** ** C2: FIFO matching order *)

(** C2: the source loop (pop when [remaining <= 0]) computes exactly the
    specification's loop (take [min] from the head lot, pop when it reaches
    [0]), and on the specification's scenarios: Buy 1@10, Buy 1@20, Sell 1
    costs 10; Buy 3@10, Sell 2 leaves the single lot 1@10; a following
    Buy 4@20, Sell 2 costs 10 + 20 = 30, leaving 3@20. *)
Theorem fifo_loop_matches_spec :
  (forall amount queue, fifo_match amount queue = spec_fifo amount 0 queue) /\
  match run_rows [buy 1 10; buy 1 20; sell 1 30 0] with
  | ([None; None; Some s], q) => sale_purchase_cost s == 10 /\ q = [mk_purchase 1 20]
  | _ => False
  end /\
  snd (run_rows [buy 3 10; sell 2 30 0]) = [mk_purchase 1 10] /\
  match run_rows [buy 3 10; sell 2 30 0; buy 4 20; sell 2 30 0] with
  | ([None; Some s1; None; Some s2], q) =>
      sale_purchase_cost s1 == 20 /\ sale_purchase_cost s2 == 30 /\
      q = [mk_purchase 3 20]
  | _ => False
  end.
Proof.
  split; [intros; rewrite fifo_match_rec; apply fifo_rec_spec_fifo|].
  split; [vm_compute; split; reflexivity|].
  split; [vm_compute; reflexivity|].
  vm_compute. repeat split; reflexivity.
Qed.

(** ** C3: deemed acquisition cost and realised gain *)



(** ** C4: rounding before computation *)

(** C4 (counterexample): a purchase of 0.123456789 unit at 1.234 per unit
    enters the FIFO queue as the doubles of 0.12345679 and 1.23: Step 1
    rounds the quantity to 8 and the price to 2 decimals before any
    computation.  And the later arithmetic is not exact either: the running
    balance after purchases of 0.1 and 0.2 is the double
    0.30000000000000004, not the sum of the two quantities. *)
Lemma engine_uses_rounded_inputs :
  let t := mk_trade "XXBTZEUR" "buy" (f64 (123456789 # 1000000000)) (f64 (1234 # 1000))
             (f64 (152345677626 # 1000000000000)) 0 in
  let t1 := mk_trade "XXBTZEUR" "buy" (f64 (1 # 10)) 100 10 0 in
  let t2 := mk_trade "XXBTZEUR" "buy" (f64 (2 # 10)) 100 20 0 in
  match snd (F64.run_rows (map F64.convert [t])) with
  | [p] => remaining p == f64 (12345679 # 100000000) /\ ~ remaining p == vol t /\
           pprice p == f64 (123 # 100) /\ ~ pprice p == price t
  | _ => False
  end /\
  last (F64.currency_remaining_list (map F64.convert [t1; t2])) 0
    == 5404319552844596 # 18014398509481984 /\
  ~ last (F64.currency_remaining_list (map F64.convert [t1; t2])) 0 == vol t1 + vol t2.
Proof. vm_compute. repeat split; try reflexivity; discriminate. Qed.

(** C4 (amended): the engine works on the row values of Step 1, the
    printed decimals parsed back to doubles: a purchase enters the queue as
    [f64 (fixed 8 vol)] at [f64 (fixed 2 price)]; a sale is matched for
    [f64 (fixed 8 vol)], its deemed cost uses [f64 (fixed 2 price)] and its
    profit [f64 (fixed 2 cost)]; the running balance adds or subtracts
    [f64 (fixed 8 vol)]; the fee is not rounded by Step 1; every later
    addition, subtraction and multiplication is rounded to a double; and
    each decimal rounding is to nearest, within half a unit of the last
    printed digit. *)
Theorem engine_rounding (queue : list purchase) (t : trade) (c : Q) (ts : list trade) :
  (type_ t = "buy"%string ->
   F64.process_row queue (F64.convert t)
   = (queue ++ [mk_purchase (f64 (fixed 8 (vol t))) (f64 (fixed 2 (price t)))], None) /\
   F64.currency_remaining_from c (map F64.convert (t :: ts))
   = fadd c (f64 (fixed 8 (vol t)))
     :: F64.currency_remaining_from (fadd c (f64 (fixed 8 (vol t)))) (map F64.convert ts)) /\
  (type_ t = "sell"%string ->
   (exists s, F64.process_row queue (F64.convert t)
              = (purchase_queue (F64.fifo_match (f64 (fixed 8 (vol t))) queue), Some s) /\
     cost_plus_fee s = fadd (sale_purchase_cost s) (fee t) /\
     deemed_acq_cost s
       = fmul (fmul (f64 (fixed 2 (price t))) F64.DEEMED_RATE) (f64 (fixed 8 (vol t))) /\
     profit_or_loss s = fsub (f64 (fixed 2 (cost t))) (applicable_cost s)) /\
   F64.currency_remaining_from c (map F64.convert (t :: ts))
   = fsub c (f64 (fixed 8 (vol t)))
     :: F64.currency_remaining_from (fsub c (f64 (fixed 8 (vol t)))) (map F64.convert ts)) /\
  Qabs (fixed 8 (vol t) - vol t) <= 1 # 200000000 /\
  Qabs (fixed 2 (price t) - price t) <= 1 # 200 /\
  Qabs (fixed 2 (cost t) - cost t) <= 1 # 200.
Proof.
  split; [|split; [|split; [|split]]].
  - intro Ht. unfold F64.process_row, F64.convert. cbn [event_of map F64.currency_remaining_from].
    rewrite Ht. split; reflexivity.
  - intro Ht. unfold F64.process_row, F64.convert. cbn [event_of map F64.currency_remaining_from].
    rewrite Ht. split; [|reflexivity].
    unfold F64.process_sell. eexists. split; [reflexivity|].
    cbn [cost_plus_fee deemed_acq_cost profit_or_loss applicable_cost sale_purchase_cost
         price_per_unit amount_numeric total row_fee].
    split; [|split]; exact eq_refl.
  - apply (fixed_error 8).
  - apply (fixed_error 2).
  - apply (fixed_error 2).
Qed.

Lemma engine_rounding_witness :
  let t := mk_trade "XXBTZEUR" "sell" (f64 (1 # 3)) (f64 (1234 # 1000)) (f64 (1234 # 3000)) 1 in
  type_ t = "sell"%string /\
  (exists s, F64.process_row [] (F64.convert t)
             = (purchase_queue (F64.fifo_match (f64 (fixed 8 (vol t))) []), Some s) /\
    cost_plus_fee s = fadd (sale_purchase_cost s) (fee t) /\
    deemed_acq_cost s
      = fmul (fmul (f64 (fixed 2 (price t))) F64.DEEMED_RATE) (f64 (fixed 8 (vol t))) /\
    profit_or_loss s = fsub (f64 (fixed 2 (cost t))) (applicable_cost s)) /\
  F64.currency_remaining_from 1 (map F64.convert [t])
  = fsub 1 (f64 (fixed 8 (vol t)))
    :: F64.currency_remaining_from (fsub 1 (f64 (fixed 8 (vol t)))) (map F64.convert []).
Proof.
  intro t. split; [reflexivity|].
  exact (proj1 (proj2 (engine_rounding [] t 1 [])) eq_refl).
Defined.

(** ** C5: zero-quantity sales *)

(** C5 (counterexample): a sale of 0 units with total 0 and fee 1 leaves
    the queue as it was but reports a loss of 1, not 0. *)
Lemma zero_sale_fee_loss :
  match F64.run_rows [buy 2 10; sell 0 30 1] with
  | ([None; Some s], q) =>
      q = [mk_purchase 2 10] /\ profit_or_loss s == -1 /\ ~ profit_or_loss s == 0
  | _ => False
  end.
Proof. vm_compute. repeat split; try reflexivity; discriminate. Qed.

(** C5 (amended): a sale of quantity 0 leaves the queue unchanged, still
    yields a record, and its profit/loss is total - max(fee, 0) rounded to
    a double (the fee being a double read from the file). *)
Theorem zero_sale_keeps_queue (queue : list purchase) (r : row) :
  event_of r = Some Myynti -> amount_numeric r == 0 -> f64 (row_fee r) == row_fee r ->
  exists s, F64.process_row queue r = (queue, Some s) /\
    profit_or_loss s = f64 (total r - Qmax (row_fee r) 0).
Proof.
  intros Hev H0 Hfee.
  assert (Hm : F64.fifo_match (amount_numeric r) queue = mk_fifo (amount_numeric r) 0 queue).
  { unfold F64.fifo_match; cbn [F64.fifo_while]. unfold fifo_cond; cbn [remaining_amount].
    rewrite (proj2 (Qlt_bool_false 0 (amount_numeric r))) by (rewrite H0; apply Qle_refl).
    reflexivity. }
  unfold F64.process_row. rewrite Hev. unfold F64.process_sell. rewrite Hm.
  eexists. split; [reflexivity|]. cbn [profit_or_loss purchase_cost].
  unfold fsub. apply f64_proper. rewrite py_max_Qmax.
  assert (Hc : fadd 0 (row_fee r) == row_fee r).
  { unfold fadd. rewrite (f64_proper (0 + row_fee r) (row_fee r)) by ring. exact Hfee. }
  assert (Hd : fmul (fmul (price_per_unit r) F64.DEEMED_RATE) (amount_numeric r) == 0).
  { unfold fmul at 1. rewrite (f64_proper _ 0) by (rewrite H0; ring). apply f64_zero. }
  apply Qplus_comp; [reflexivity|]. apply Qopp_comp. exact (Q.max_compat _ _ Hc _ _ Hd).
Qed.

Lemma zero_sale_keeps_queue_witness :
  event_of (sell 0 30 1) = Some Myynti /\ amount_numeric (sell 0 30 1) == 0 /\
  f64 (row_fee (sell 0 30 1)) == row_fee (sell 0 30 1) /\
  exists s, F64.process_row [mk_purchase 2 10] (sell 0 30 1) = ([mk_purchase 2 10], Some s) /\
    profit_or_loss s = f64 (total (sell 0 30 1) - Qmax (row_fee (sell 0 30 1)) 0).
Proof.
  assert (H1 : event_of (sell 0 30 1) = Some Myynti) by reflexivity.
  assert (H2 : amount_numeric (sell 0 30 1) == 0) by reflexivity.
  assert (H3 : f64 (row_fee (sell 0 30 1)) == row_fee (sell 0 30 1)) by (vm_compute; reflexivity).
  split; [exact H1 | split; [exact H2 | split; [exact H3|]]].
  exact (zero_sale_keeps_queue [mk_purchase 2 10] (sell 0 30 1) H1 H2 H3).
Defined.

(** ** C6: no input validation *)

(** C6 (counterexample): a purchase of -1 unit is not rejected: the call
    writes its row and the queue receives a lot of -1 unit. *)
Lemma negative_buy_accepted :
  List.length (process_trades_for_laskuri "XBT" [mk_trade "XXBTZEUR" "buy" (-1) 10 (-10) 0]) = 1%nat /\
  run_rows [buy (-1) 10] = ([None], [mk_purchase (-1) 10]).
Proof. split; vm_compute; reflexivity. Qed.

(** C6 (amended): there is no validation step: every row yields one record,
    and a purchase is appended to the queue whatever the signs of its
    quantity and price. *)
Theorem no_event_validation (queue : list purchase) (r : row) (rows : list row) :
  event_of r = Some Osto ->
  process_row queue r = (queue ++ [mk_purchase (amount_numeric r) (price_per_unit r)], None) /\
  List.length (fst (laskuri_loop queue rows)) = List.length rows.
Proof.
  intro Hev. split; [unfold process_row; rewrite Hev; reflexivity|].
  revert queue. induction rows as [|x xs IH]; intro queue; [reflexivity|].
  cbn [laskuri_loop]. destruct (process_row queue x) as [q1 o].
  specialize (IH q1). destruct (laskuri_loop q1 xs) as [os qf]. cbn in *. lia.
Qed.

Lemma no_event_validation_witness :
  event_of (buy (-1) (-10)) = Some Osto /\
  process_row [] (buy (-1) (-10)) = ([mk_purchase (-1) (-10)], None) /\
  List.length (fst (laskuri_loop [] [sell 1 (-3) 0])) = 1%nat.
Proof.
  split; [reflexivity|].
  exact (no_event_validation [] (buy (-1) (-10)) [sell 1 (-3) 0] eq_refl).
Defined.

(** ** C7: running balance and conservation *)


(** ** C8: tie between FIFO cost and deemed cost *)

(** C8: when FIFO cost + fee equals the deemed cost, the applicable cost is
    FIFO cost + fee and the cost column shows the FIFO figure first with the
    deemed figure in parentheses. *)
Theorem tie_prefers_fifo (queue q' : list purchase) (r : row) (s : sale) :
  process_row queue r = (q', Some s) ->
  cost_plus_fee s == deemed_acq_cost s ->
  applicable_cost s = cost_plus_fee s /\
  combined_str s
  = (fmt_eur (sale_purchase_cost s) ++ " / (" ++ fmt_eur (deemed_acq_cost s) ++ ")")%string.
Proof.
  intros Hp Heq. unfold process_row in Hp.
  destruct (event_of r) as [[|]|]; try discriminate.
  unfold process_sell in Hp. injection Hp as _ Hs. subst s.
  cbn [applicable_cost cost_plus_fee combined_str sale_purchase_cost deemed_acq_cost]
    in *.
  assert (Hf : Qlt_bool (purchase_cost (fifo_match (amount_numeric r) queue) + row_fee r)
                 (price_per_unit r * DEEMED_RATE * amount_numeric r) = false).
  { apply Qlt_bool_false. rewrite Heq. apply Qle_refl. }
  unfold py_max. rewrite Hf. split; reflexivity.
Qed.

Lemma tie_prefers_fifo_witness :
  exists s, process_row [mk_purchase 1 10] (sell 1 50 0) = ([], Some s) /\
    cost_plus_fee s == deemed_acq_cost s /\
    applicable_cost s = cost_plus_fee s /\
    combined_str s
    = (fmt_eur (sale_purchase_cost s) ++ " / (" ++ fmt_eur (deemed_acq_cost s) ++ ")")%string.
Proof.
  eexists. split; [vm_compute; reflexivity|].
  assert (H : cost_plus_fee (snd (process_sell [mk_purchase 1 10] (sell 1 50 0)))
              == deemed_acq_cost (snd (process_sell [mk_purchase 1 10] (sell 1 50 0))))
    by (vm_compute; reflexivity).
  split; [exact H|].
  exact (tie_prefers_fifo [mk_purchase 1 10] [] (sell 1 50 0) _ eq_refl H).
Defined.

(** ** C9: a pure function of its input *)

(** C9: two calls on the same input give the same rows; each call runs
    the engine from an empty queue and depends on nothing but its input. *)
Theorem process_deterministic (coin : string) (dataset : list trade) :
  let out1 := process_trades_for_laskuri coin dataset in
  let out2 := process_trades_for_laskuri coin dataset in
  out1 = out2 /\
  out1 = build_output (filter (fun t => str_contains coin (pair t)) dataset)
           (currency_remaining_list
              (map convert (filter (fun t => str_contains coin (pair t)) dataset)))
           (fst (run_rows
              (map convert (filter (fun t => str_contains coin (pair t)) dataset)))).
Proof.
  cbv zeta. split; [reflexivity|]. unfold process_trades_for_laskuri, run_rows.
  destruct (laskuri_loop [] _) as [sales qf]. reflexivity.
Qed.

(** ** C10: frame of one event *)

(** C10: a purchase appends one lot and leaves the others as they were; a
    sale removes a head prefix of the queue and at most decreases the
    remaining quantity of the next lot, keeping its price, and leaves the
    rest of the queue untouched; other rows leave the queue unchanged. *)
Theorem process_row_frame (queue : list purchase) (r : row) :
  (event_of r = Some Osto ->
   fst (process_row queue r) = queue ++ [mk_purchase (amount_numeric r) (price_per_unit r)]) /\
  (event_of r = Some Myynti ->
   exists pre post, queue = pre ++ post /\
     (fst (process_row queue r) = post \/
      exists p rest x, post = p :: rest /\
        fst (process_row queue r) = mk_purchase x (pprice p) :: rest /\
        x < remaining p)) /\
  (event_of r = None -> fst (process_row queue r) = queue).
Proof.
  unfold process_row.
  split; [|split]; intro Hev; rewrite Hev; [reflexivity| |reflexivity].
  unfold process_sell; cbn [fst]. rewrite fifo_match_rec.
  apply fifo_rec_frame.
Qed.

Lemma process_row_frame_witness :
  event_of (sell 3 30 0) = Some Myynti /\
  exists pre post, [mk_purchase 2 10; mk_purchase 4 20; mk_purchase 1 5] = pre ++ post /\
    (fst (process_row [mk_purchase 2 10; mk_purchase 4 20; mk_purchase 1 5] (sell 3 30 0)) = post \/
     exists p rest x, post = p :: rest /\
       fst (process_row [mk_purchase 2 10; mk_purchase 4 20; mk_purchase 1 5] (sell 3 30 0))
       = mk_purchase x (pprice p) :: rest /\
       x < remaining p).
Proof.
  split; [reflexivity|].
  exact (proj1 (proj2 (process_row_frame
           [mk_purchase 2 10; mk_purchase 4 20; mk_purchase 1 5] (sell 3 30 0))) eq_refl).
Defined.

(** * Further properties of the code *)

(** ** Helper facts *)






Lemma fifo_rec_lots (P : Q -> Prop) (q : list purchase) :
  (forall x, 0 < x -> P x) ->
  forall ra pc, Forall (fun p => P (remaining p)) q ->
  Forall (fun p => P (remaining p)) (purchase_queue (fifo_rec ra pc q)).
Proof.
  intro HP. induction q as [|p rest IH]; intros ra pc Hq; [constructor|].
  inversion Hq as [|? ? Hp Hrest]; subst.
  cbn [fifo_rec]. destruct (Qlt_bool 0 ra); [|exact Hq].
  cbn [remaining pprice].
  destruct (Qle_bool (remaining p - py_min ra (remaining p)) 0) eqn:Ep.
  - apply IH, Hrest.
  - cbn [purchase_queue]. constructor; [|exact Hrest].
    cbn [remaining]. apply HP, Qle_bool_false_lt, Ep.
Qed.

Lemma py_min_le_l (a b : Q) : py_min a b <= a.
Proof.
  unfold py_min. destruct (Qlt_bool b a) eqn:E; [|apply Qle_refl].
  apply Qlt_le_weak, Qlt_bool_iff, E.
Qed.


(** ** Extras on trades_to_laskuri.py *)



Lemma laskuri_loop_positive (rows : list row) :
  forall queue,
  Forall (fun p => 0 < remaining p) queue ->
  Forall (fun r => event_of r = Some Osto -> 0 < amount_numeric r) rows ->
  Forall (fun p => 0 < remaining p) (snd (laskuri_loop queue rows)).
Proof.
  induction rows as [|r rs IH]; intros queue Hq Hrows; [exact Hq|].
  inversion Hrows as [|? ? Hr Hrs]; subst.
  cbn [laskuri_loop]. destruct (process_row queue r) as [q1 o] eqn:E.
  pose proof (IH q1) as H. destruct (laskuri_loop q1 rs) as [os qf].
  cbn [snd] in *. apply H; [|exact Hrs].
  unfold process_row in E. destruct (event_of r) as [[|]|].
  - injection E as <- <-. apply Forall_app. split; [exact Hq|].
    constructor; [apply Hr; reflexivity | constructor].
  - destruct (process_sell queue r) as [q2 s] eqn:Es. injection E as <- <-.
    unfold process_sell in Es. injection Es as <- _. rewrite fifo_match_rec.
    apply (fifo_rec_lots (fun x => 0 < x)); [auto | exact Hq].
  - injection E as <- <-. exact Hq.
Qed.

(** X4: when every purchase quantity is positive, every lot in the queue
    has a positive remaining quantity (lots reaching 0 are popped). *)
Theorem lots_stay_positive (rows : list row) :
  Forall (fun r => event_of r = Some Osto -> 0 < amount_numeric r) rows ->
  Forall (fun p => 0 < remaining p) (snd (run_rows rows)).
Proof. intro H. apply laskuri_loop_positive; [constructor | exact H]. Qed.

Lemma lots_stay_positive_witness :
  Forall (fun r => event_of r = Some Osto -> 0 < amount_numeric r)
    [buy 3 10; sell 3 30 0; buy 2 20; sell 1 30 0] /\
  Forall (fun p => 0 < remaining p)
    (snd (run_rows [buy 3 10; sell 3 30 0; buy 2 20; sell 1 30 0])).
Proof.
  assert (H : Forall (fun r => event_of r = Some Osto -> 0 < amount_numeric r)
                [buy 3 10; sell 3 30 0; buy 2 20; sell 1 30 0]).
  { repeat constructor; intro E; vm_compute; try reflexivity; discriminate. }
  split; [exact H | exact (lots_stay_positive _ H)].
Defined.



(** ** Layout of the written CSV *)

Lemma currency_remaining_from_length (c : Q) (rows : list row) :
  List.length (currency_remaining_from c rows) = List.length rows.
Proof.
  revert c; induction rows as [|r rs IH]; intro c; cbn [currency_remaining_from List.length];
    [reflexivity | rewrite IH; reflexivity].
Qed.

Lemma append_nonempty (s t : string) : s <> EmptyString -> (s ++ t)%string <> EmptyString.
Proof. destruct s; [contradiction | discriminate]. Qed.

Lemma fmt_eur_nonempty (x : Q) : fmt_eur x <> EmptyString.
Proof.
  unfold fmt_eur. destruct (format_fixed 2 x); cbn [append replace_dot]; discriminate.
Qed.

Lemma process_sell_combined_nonempty (queue : list purchase) (r : row) :
  combined_str (snd (process_sell queue r)) <> EmptyString.
Proof.
  unfold process_sell; cbn [snd combined_str].
  match goal with |- (if ?b then _ else _) <> _ => destruct b end.
  - discriminate.
  - apply append_nonempty, fmt_eur_nonempty.
Qed.

(** How a row of [laskuri_loop]'s result matches its trade. *)
Definition sale_shape (t : trade) (o : option sale) : Prop :=
  match o with
  | None => type_map (type_ t) <> Some Myynti
  | Some s => type_map (type_ t) = Some Myynti /\ combined_str s <> EmptyString
  end.

Lemma laskuri_loop_shape (ts : list trade) :
  forall queue, Forall2 sale_shape ts (fst (laskuri_loop queue (map convert ts))).
Proof.
  induction ts as [|t ts IH]; intro queue; [constructor|].
  cbn [map laskuri_loop].
  destruct (process_row queue (convert t)) as [q1 o] eqn:E.
  destruct (laskuri_loop q1 (map convert ts)) as [os qf] eqn:E2.
  cbn [fst]. constructor.
  - unfold process_row in E. cbn [event_of convert] in E. unfold sale_shape.
    destruct (type_map (type_ t)) as [[|]|] eqn:Et.
    + injection E as _ <-. discriminate.
    + destruct (process_sell queue (convert t)) as [q' s] eqn:Es.
      injection E as _ <-. split; [reflexivity|].
      change s with (snd (q', s)). rewrite <- Es. apply process_sell_combined_nonempty.
    + injection E as _ <-. discriminate.
  - specialize (IH q1). rewrite E2 in IH. exact IH.
Qed.

Lemma build_output_shape (ts : list trade) :
  forall crs os,
  List.length crs = List.length ts ->
  Forall2 sale_shape ts os ->
  List.length (build_output ts crs os) = List.length ts /\
  Forall (fun o => (out_cost o <> EmptyString <-> out_event o = Some Myynti) /\
                   (out_profit_loss o <> EmptyString <-> out_event o = Some Myynti))
         (build_output ts crs os).
Proof.
  induction ts as [|t ts IH]; intros crs os Hl Hf.
  - destruct crs, os; split; constructor.
  - destruct crs as [|cr crs]; [discriminate|].
    inversion Hf as [|? o ? os' Ho Hos]; subst.
    cbn [build_output List.length] in *.
    destruct (IH crs os' (eq_add_S _ _ Hl) Hos) as [IHl IHf].
    split; [rewrite IHl; reflexivity|].
    constructor; [|exact IHf].
    unfold output_row; cbn [out_cost out_event out_profit_loss].
    destruct o as [s|]; cbn in Ho.
    + destruct Ho as [Ht Hs]. rewrite Ht.
      split; split; intros _; [reflexivity | exact Hs | reflexivity | apply fmt_eur_nonempty].
    + split; split; intro H; [congruence | congruence | congruence | congruence].
Qed.

(** X7: when the coin selects at least one row (with none, the code
    writes no file), the written CSV has one row per selected trade, and a
    row's purchase cost and profit columns are filled exactly when its
    event is a sale ('Myynti'). *)
Theorem selected_rows_columns_by_event (coin_data : list trade) :
  coin_data <> [] ->
  List.length (laskuri_output coin_data) = List.length coin_data /\
  Forall (fun o => (out_cost o <> EmptyString <-> out_event o = Some Myynti) /\
                   (out_profit_loss o <> EmptyString <-> out_event o = Some Myynti))
         (laskuri_output coin_data).
Proof.
  intros _. unfold laskuri_output.
  pose proof (laskuri_loop_shape coin_data []) as Hs.
  destruct (laskuri_loop [] (map convert coin_data)) as [sales qf]. cbn [fst] in Hs.
  apply build_output_shape; [|exact Hs].
  unfold currency_remaining_list. rewrite currency_remaining_from_length, length_map.
  reflexivity.
Qed.

Lemma selected_rows_columns_by_event_witness :
  let cd := [mk_trade "XXBTZEUR" "buy" 2 10 20 0; mk_trade "XXBTZEUR" "sell" 1 30 30 0]%string in
  cd <> [] /\
  List.length (laskuri_output cd) = List.length cd /\
  Forall (fun o => (out_cost o <> EmptyString <-> out_event o = Some Myynti) /\
                   (out_profit_loss o <> EmptyString <-> out_event o = Some Myynti))
         (laskuri_output cd).
Proof.
  intro cd. assert (H : cd <> []) by discriminate.
  split; [exact H | exact (selected_rows_columns_by_event cd H)].
Defined.

(** ** ledger_to_trades and filter_ledger *)

From Stdlib Require Import Permutation.

Lemma filter_filter_sub {A : Type} (P P' : A -> bool) (l : list A) :
  (forall x, P x = true -> P' x = true) -> filter P (filter P' l) = filter P l.
Proof.
  intro H. induction l as [|x l IH]; [reflexivity|]. cbn [filter].
  destruct (P' x) eqn:E'; cbn [filter]; destruct (P x) eqn:E; rewrite ?IH; try reflexivity.
  rewrite (H x E) in E'. discriminate.
Qed.

Lemma in_list_spend_receive (s : string) :
  in_list s ["spend"; "receive"]%string = true -> s = "spend"%string \/ s = "receive"%string.
Proof.
  unfold in_list. rewrite existsb_exists. intros [x [Hx He]]. apply String.eqb_eq in He. subst.
  destruct Hx as [<-|[<-|[]]]; auto.
Qed.

Lemma fold_left_invariant {A B : Type} (step : A -> B -> A) (I : A -> Prop) (P : B -> Prop) :
  (forall a b, I a -> P b -> I (step a b)) ->
  forall l a, I a -> Forall P l -> I (fold_left step l a).
Proof.
  intros Hs l; induction l as [|b l IH]; intros a Ha Hl; cbn [fold_left]; [exact Ha|].
  inversion Hl; subst. apply IH; auto.
Qed.


Lemma pick_swap_rows_spec (g : list ledger_row) (s v : ledger_row) :
  pick_swap_rows g = (Some s, Some v) ->
  In s g /\ l_type s = "spend"%string /\ in_list (l_asset s) coins = true /\
  In v g /\ l_type v = "receive"%string /\ in_list (l_asset v) coins = true.
Proof.
  intro E.
  set (I := fun acc : option ledger_row * option ledger_row =>
     (forall x, fst acc = Some x ->
        In x g /\ l_type x = "spend"%string /\ in_list (l_asset x) coins = true) /\
     (forall x, snd acc = Some x ->
        In x g /\ l_type x = "receive"%string /\ in_list (l_asset x) coins = true)).
  assert (H : I (pick_swap_rows g)).
  { unfold pick_swap_rows. apply (fold_left_invariant _ I (fun r => In r g)).
    - intros [s0 v0] r [Hs Hv] Hr. unfold pick_swap_step, I in *. cbn [fst snd] in *.
      destruct (String.eqb (l_type r) "spend" && in_list (l_asset r) coins) eqn:E1;
        [|destruct (String.eqb (l_type r) "receive" && in_list (l_asset r) coins) eqn:E2];
        cbn [fst snd]; try apply andb_true_iff in E1; try apply andb_true_iff in E2;
        split; intros x Hx;
        first [injection Hx as <-;
               match goal with
               | H : _ /\ _ |- _ => destruct H as [Ht Hc]; apply String.eqb_eq in Ht; auto
               end
              | auto].
    - split; intros x Hx; discriminate.
    - apply Forall_forall; auto. }
  rewrite E in H. destruct H as [H1 H2].
  destruct (H1 s eq_refl) as (? & ? & ?), (H2 v eq_refl) as (? & ? & ?). auto 7.
Qed.

Lemma in_group (k : string) (rows : list ledger_row) (r : ledger_row) :
  In r (group k rows) -> In r rows /\ l_refid r = k.
Proof.
  unfold group. rewrite filter_In. intros [H1 H2]. apply String.eqb_eq in H2. auto.
Qed.

Lemma in_grouped_rows (body : string -> list ledger_row -> option gen_row)
    (rows : list ledger_row) (g : gen_row) :
  In g (grouped_rows body rows) -> exists k, body k (group k rows) = Some g.
Proof.
  unfold grouped_rows. rewrite in_flat_map. intros [k [_ Hk]]. exists k.
  destruct (body k (group k rows)); [destruct Hk as [<-|[]]; reflexivity | destruct Hk].
Qed.

Lemma ledger_to_trades_split (df : list ledger_row) (tc : list trades_csv_row)
    (out : list gen_row) :
  ledger_to_trades df tc = Some out ->
  out = grouped_rows (trade_row tc) (filter (fun r => String.eqb (l_type r) "trade") df) ++
        grouped_rows (swap_row tc)
          (filter (fun r => in_list (l_type r) ["spend"; "receive"]%string) df).
Proof.
  unfold ledger_to_trades; cbv zeta.
  destruct (filter (fun r => String.eqb (l_type r) "trade") df) as [|r0 rs]; [discriminate|].
  match goal with |- match ?x with _ => _ end = _ -> _ => destruct x eqn:E end;
    [discriminate|].
  intro H. injection H as <-. reflexivity.
Qed.

Lemma swap_row_type (tc : list trades_csv_row) (k : string) (g : list ledger_row) (o : gen_row) :
  swap_row tc k g = Some o -> g_type o = "trade"%string.
Proof.
  unfold swap_row. destruct g as [|r0 [|r1 [|]]]; try discriminate.
  destruct (pick_swap_rows _) as [[s|] [v|]]; try discriminate.
  intro H; injection H as <-. reflexivity.
Qed.

Lemma trade_row_type (tc : list trades_csv_row) (k : string) (g : list ledger_row) (o : gen_row) :
  trade_row tc k g = Some o ->
  g_txid o = k /\ (g_type o = "buy"%string \/ g_type o = "sell"%string).
Proof.
  unfold trade_row. destruct g as [|r0 [|r1 [|]]]; try discriminate.
  destruct (pick_trade_rows _) as [[f|] [c|]]; try discriminate.
  destruct (Qlt_bool (l_amount f) 0); [|destruct (Qlt_bool 0 (l_amount f))];
    try discriminate; intro H; injection H as <-; cbn; auto.
Qed.

Lemma Qabs_nonzero (b : Q) : ~ b == 0 -> ~ Qabs b == 0.
Proof.
  intro Hb. apply (Qabs_case b (fun x => ~ x == 0)); intros _; [exact Hb|].
  intro H. apply Hb. rewrite <- (Qopp_involutive b), H. reflexivity.
Qed.

Lemma ratio_spec (a b : Q) :
  0 <= ratio a b /\ (~ Qabs b == 0 -> ratio a b = f64 (Qabs a / Qabs b)) /\
  (Qabs b == 0 -> ratio a b == 0).
Proof.
  unfold ratio. destruct (Qeq_bool b 0) eqn:E; cbn [negb].
  - apply Qeq_bool_iff in E. split; [apply Qle_refl|]. split; [|intros _; reflexivity].
    intro H. exfalso. apply H. rewrite E. reflexivity.
  - apply Qeq_bool_neq, Qabs_nonzero in E. split; [|split; [reflexivity | contradiction]].
    apply f64_nonneg. unfold Qdiv. apply Qmult_le_0_compat; [apply Qabs_nonneg|].
    apply Qinv_le_0_compat, Qabs_nonneg.
Qed.



Lemma insert_key_perm (k : string) (ks : list string) : Permutation (insert_key k ks) (k :: ks).
Proof.
  induction ks as [|k' ks IH]; cbn [insert_key]; [reflexivity|].
  destruct (String.leb k k'); [reflexivity|].
  eapply perm_trans; [apply perm_skip, IH | apply perm_swap].
Qed.

Lemma group_keys_nodup (rows : list ledger_row) : NoDup (group_keys rows).
Proof.
  unfold group_keys.
  assert (Hp : forall l, Permutation (fold_right insert_key [] l) l).
  { induction l as [|k l IH]; cbn [fold_right]; [reflexivity|].
    eapply perm_trans; [apply insert_key_perm | apply perm_skip, IH]. }
  eapply Permutation_NoDup; [apply Permutation_sym, Hp | apply NoDup_nodup].
Qed.

Lemma flat_map_txids_nodup (F : string -> list gen_row) :
  (forall k, Forall (fun g => g_txid g = k) (F k) /\ (List.length (F k) <= 1)%nat) ->
  forall ks, NoDup ks ->
  NoDup (map g_txid (flat_map F ks)) /\
  (forall x, In x (map g_txid (flat_map F ks)) -> In x ks).
Proof.
  intros HF ks; induction ks as [|k ks IH]; intro Hnd; [split; [constructor | intros _ []]|].
  inversion Hnd as [|? ? Hk Hks]; subst. destruct (IH Hks) as [IH1 IH2].
  cbn [flat_map]. rewrite map_app. destruct (HF k) as [Hf Hl].
  destruct (F k) as [|g [|g' l]]; cbn [List.length] in Hl; [| |lia].
  - cbn [map app]. split; [exact IH1|]. intros x Hx; right; auto.
  - inversion Hf as [|? ? Hg _]; subst. cbn [map app]. split.
    + constructor; [|exact IH1]. intro Hin. apply Hk, IH2, Hin.
    + intros x [<-|Hx]; [left; reflexivity | right; auto].
Qed.

Lemma filter_all {A : Type} (P : A -> bool) (l : list A) :
  Forall (fun x => P x = true) l -> filter P l = l.
Proof.
  induction 1 as [|x l Hx _ IH]; [reflexivity|]. cbn [filter]. rewrite Hx, IH. reflexivity.
Qed.

Lemma filter_none {A : Type} (P : A -> bool) (l : list A) :
  Forall (fun x => P x = false) l -> filter P l = [].
Proof.
  induction 1 as [|x l Hx _ IH]; [reflexivity|]. cbn [filter]. rewrite Hx, IH. reflexivity.
Qed.

(** X8: nothing is written exactly when the ledger has no 'trade' row, or
    when neither the trade groups nor the spend/receive groups produce a
    row; in particular valid spend/receive pairs are dropped whenever the
    ledger holds no 'trade' row. *)
Theorem ledger_writes_nothing_iff (df : list ledger_row) (tc : list trades_csv_row) :
  ledger_to_trades df tc = None <->
  filter (fun r => String.eqb (l_type r) "trade") df = [] \/
  (grouped_rows (trade_row tc) (filter (fun r => String.eqb (l_type r) "trade") df) = [] /\
   grouped_rows (swap_row tc)
     (filter (fun r => in_list (l_type r) ["spend"; "receive"]%string) df) = []).
Proof.
  unfold ledger_to_trades; cbv zeta.
  destruct (filter (fun r => String.eqb (l_type r) "trade") df) as [|r0 rs].
  - split; [intros _; left; reflexivity | reflexivity].
  - match goal with |- context [match ?x with [] => None | _ :: _ => Some _ end] =>
      destruct x as [|o os] eqn:E end.
    + apply app_eq_nil in E. split; [intros _; right; exact E | reflexivity].
    + split; [discriminate|]. intros [H|[H1 H2]]; [discriminate|].
      rewrite H1, H2 in E. discriminate.
Qed.

Lemma ledger_writes_nothing_iff_witness :
  grouped_rows (swap_row [])
    (filter (fun r => in_list (l_type r) ["spend"; "receive"]%string)
       [mk_ledger "t1" "R1" "d" "spend" "ETH" (-1) 0;
        mk_ledger "t2" "R1" "d" "receive" "BTC" (1#10) 0]%string) <> [] /\
  ledger_to_trades
    [mk_ledger "t1" "R1" "d" "spend" "ETH" (-1) 0;
     mk_ledger "t2" "R1" "d" "receive" "BTC" (1#10) 0]%string [] = None.
Proof.
  split; [vm_compute; discriminate|].
  apply ledger_writes_nothing_iff. left. reflexivity.
Defined.

(** X9: every written row has type 'buy', 'sell' or 'trade', non-negative
    price, cost and volume; its price is the double nearest to cost divided
    by volume, and 0 when the volume is 0. *)
Theorem written_rows_priced (df : list ledger_row) (tc : list trades_csv_row)
    (out : list gen_row) (g : gen_row) :
  ledger_to_trades df tc = Some out -> In g out ->
  (g_type g = "buy"%string \/ g_type g = "sell"%string \/ g_type g = "trade"%string) /\
  0 <= g_price g /\ 0 <= g_cost g /\ 0 <= g_vol g /\
  (~ g_vol g == 0 -> g_price g = f64 (g_cost g / g_vol g)) /\
  (g_vol g == 0 -> g_price g == 0).
Proof.
  intros H Hin. apply ledger_to_trades_split in H. subst out.
  apply in_app_or in Hin as [Hin|Hin]; apply in_grouped_rows in Hin as [k Hk].
  - pose proof (trade_row_type _ _ _ _ Hk) as [_ Ht].
    unfold trade_row in Hk. destruct (group k _) as [|r0 [|r1 [|]]]; try discriminate.
    destruct (pick_trade_rows _) as [[f|] [c|]]; try discriminate.
    destruct (Qlt_bool (l_amount f) 0); [|destruct (Qlt_bool 0 (l_amount f))];
      try discriminate; injection Hk as <-; cbn [g_type g_price g_cost g_vol] in *;
      destruct (ratio_spec (l_amount f) (l_amount c)) as [Hr1 [Hr2 Hr3]];
      (split; [tauto|]); repeat split; auto using Qabs_nonneg.
  - pose proof (swap_row_type _ _ _ _ Hk) as Ht.
    unfold swap_row in Hk. destruct (group k _) as [|r0 [|r1 [|]]]; try discriminate.
    destruct (pick_swap_rows _) as [[s|] [v|]]; try discriminate.
    injection Hk as <-; cbn [g_type g_price g_cost g_vol] in *.
    destruct (ratio_spec (l_amount s) (l_amount v)) as [Hr1 [Hr2 Hr3]].
    split; [tauto|]. repeat split; auto using Qabs_nonneg.
Qed.

Lemma written_rows_priced_witness :
  exists out, ledger_to_trades
    [mk_ledger "t1" "R1" "d" "trade" "EUR" (-100) 1;
     mk_ledger "t2" "R1" "d" "trade" "BTC" 2 0]%string [] = Some out /\
  Forall (fun g =>
    (g_type g = "buy"%string \/ g_type g = "sell"%string \/ g_type g = "trade"%string) /\
    0 <= g_price g /\ 0 <= g_cost g /\ 0 <= g_vol g /\
    (~ g_vol g == 0 -> g_price g = f64 (g_cost g / g_vol g)) /\
    (g_vol g == 0 -> g_price g == 0)) out.
Proof.
  eexists. split; [vm_compute; reflexivity|].
  apply Forall_forall. intros g Hg.
  exact (written_rows_priced
    [mk_ledger "t1" "R1" "d" "trade" "EUR" (-100) 1;
     mk_ledger "t2" "R1" "d" "trade" "BTC" 2 0]%string [] _ g eq_refl Hg).
Defined.



(** X11: a written row of type 'trade' comes from a 'spend' and a
    'receive' ledger row of one refid, both of listed coins; its pair is
    spend/receive and its class 'currency'.  Read back by the Laskuri
    engine its type maps to no event, so the row leaves the purchase queue
    unchanged and yields no sale. *)
Theorem written_swap_rows (df : list ledger_row) (tc : list trades_csv_row)
    (out : list gen_row) (g : gen_row) :
  ledger_to_trades df tc = Some out -> In g out -> g_type g = "trade"%string ->
  (exists spend_row receive_row,
    In spend_row df /\ In receive_row df /\
    l_type spend_row = "spend"%string /\ l_type receive_row = "receive"%string /\
    l_refid spend_row = g_txid g /\ l_refid receive_row = g_txid g /\
    in_list (l_asset spend_row) coins = true /\ in_list (l_asset receive_row) coins = true /\
    g_pair g = (l_asset spend_row ++ "/" ++ l_asset receive_row)%string /\
    g_aclass g = "currency"%string /\
    g_cost g = Qabs (l_amount spend_row) /\ g_vol g = Qabs (l_amount receive_row)) /\
  (forall queue, process_row queue (convert (gen_to_trade g)) = (queue, None)).
Proof.
  intros H Hin Htype. split.
  2: { intro queue. unfold process_row, convert, gen_to_trade. cbn [event_of type_].
       rewrite Htype. reflexivity. }
  apply ledger_to_trades_split in H. subst out.
  apply in_app_or in Hin as [Hin|Hin]; apply in_grouped_rows in Hin as [k Hk].
  { apply trade_row_type in Hk as [_ Ht]. rewrite Htype in Ht. destruct Ht; discriminate. }
  pose proof Hk as Hk'. apply swap_row_type in Hk'.
  unfold swap_row in Hk.
  destruct (group k (filter (fun r => in_list (l_type r) ["spend"; "receive"]%string) df))
    as [|r0 [|r1 [|]]] eqn:Eg; try discriminate.
  destruct (pick_swap_rows [r0; r1]) as [[s|] [v|]] eqn:Ep; try discriminate.
  destruct (pick_swap_rows_spec _ _ _ Ep) as (Hs & Hst & Hsc & Hv & Hvt & Hvc).
  assert (Hmem : forall x, In x [r0; r1] -> In x df /\ l_refid x = k).
  { intros x Hx. rewrite <- Eg in Hx. apply in_group in Hx as [Hx Hr].
    apply filter_In in Hx as [Hx _]. auto. }
  destruct (Hmem s Hs) as [Hs1 Hs2], (Hmem v Hv) as [Hv1 Hv2].
  injection Hk as <-. cbn [g_txid g_pair g_aclass g_cost g_vol].
  exists s, v. repeat split; assumption.
Qed.

Lemma written_swap_rows_witness :
  exists out, ledger_to_trades
    [mk_ledger "t0" "R0" "d" "trade" "EUR" (-100) 1;
     mk_ledger "t3" "R0" "d" "trade" "BTC" 2 0;
     mk_ledger "t1" "R1" "d" "spend" "ETH" (-1) 0;
     mk_ledger "t2" "R1" "d" "receive" "BTC" (1#10) 0]%string [] = Some out /\
  exists g, In g out /\ g_type g = "trade"%string /\
  process_row [] (convert (gen_to_trade g)) = ([], None).
Proof.
  eexists. split; [vm_compute; reflexivity|].
  eexists. split; [right; left; reflexivity|]. split; [reflexivity|].
  apply (written_swap_rows
    [mk_ledger "t0" "R0" "d" "trade" "EUR" (-100) 1;
     mk_ledger "t3" "R0" "d" "trade" "BTC" 2 0;
     mk_ledger "t1" "R1" "d" "spend" "ETH" (-1) 0;
     mk_ledger "t2" "R1" "d" "receive" "BTC" (1#10) 0]%string [] _ _ eq_refl
    (or_intror (or_introl eq_refl)) eq_refl).
Defined.

(** X12: filter_ledger.py removes only fiat withdrawals, which
    ledger_to_trades never reads: converting the filtered ledger gives the
    same result as converting the original one. *)
Theorem filter_ledger_transparent (df : list ledger_row) (tc : list trades_csv_row) :
  ledger_to_trades (filter_ledger df) tc = ledger_to_trades df tc.
Proof.
  unfold ledger_to_trades, filter_ledger; cbv zeta.
  rewrite !filter_filter_sub; [reflexivity| |].
  - intros r Hr. apply in_list_spend_receive in Hr as [-> | ->]; reflexivity.
  - intros r Hr. apply String.eqb_eq in Hr. rewrite Hr. reflexivity.
Qed.

(** X13: no two written 'buy'/'sell' rows share a txid (each refid yields
    at most one such row). *)
Theorem written_trades_unique (df : list ledger_row) (tc : list trades_csv_row)
    (out : list gen_row) :
  ledger_to_trades df tc = Some out ->
  NoDup (map g_txid (filter (fun g => String.eqb (g_type g) "buy" ||
                                      String.eqb (g_type g) "sell") out)).
Proof.
  intro H. apply ledger_to_trades_split in H. subst out.
  rewrite filter_app.
  rewrite (filter_none _ (grouped_rows (swap_row tc) _)).
  2: { apply Forall_forall. intros g Hg. apply in_grouped_rows in Hg as [k Hk].
       apply swap_row_type in Hk. rewrite Hk. reflexivity. }
  rewrite app_nil_r, filter_all.
  2: { apply Forall_forall. intros g Hg. apply in_grouped_rows in Hg as [k Hk].
       apply trade_row_type in Hk as [_ [-> | ->]]; reflexivity. }
  unfold grouped_rows.
  apply flat_map_txids_nodup; [|apply group_keys_nodup].
  intro k. destruct (trade_row tc k _) as [o|] eqn:E; cbn [List.length]; [|split; [constructor | lia]].
  apply trade_row_type in E as [E _]. split; [constructor; [exact E | constructor] | lia].
Qed.

Lemma written_trades_unique_witness :
  exists out, ledger_to_trades
    [mk_ledger "t1" "R1" "d" "trade" "EUR" (-100) 1;
     mk_ledger "t2" "R1" "d" "trade" "BTC" 2 0;
     mk_ledger "t3" "R2" "d" "trade" "GBP" 50 0;
     mk_ledger "t4" "R2" "d" "trade" "ETH" (-5) 0]%string [] = Some out /\
  NoDup (map g_txid (filter (fun g => String.eqb (g_type g) "buy" ||
                                      String.eqb (g_type g) "sell") out)).
Proof.
  eexists. split; [vm_compute; reflexivity|].
  exact (written_trades_unique
    [mk_ledger "t1" "R1" "d" "trade" "EUR" (-100) 1;
     mk_ledger "t2" "R1" "d" "trade" "BTC" 2 0;
     mk_ledger "t3" "R2" "d" "trade" "GBP" 50 0;
     mk_ledger "t4" "R2" "d" "trade" "ETH" (-5) 0]%string [] _ eq_refl).
Defined.

(** ** forex_date.py *)

(** X14: the datetime used for the forex lookup is always a weekday; a
    weekday target is used unchanged, and a Saturday or Sunday target is
    replaced by the Friday before it at 23:59:59, strictly earlier than the
    target and less than two days and one second before it. *)
Theorem forex_lookup_time (t : datetime) :
  valid_time t ->
  (weekday (getfx_datetime t) < 5)%Z /\
  ((weekday t < 5)%Z -> getfx_datetime t = t) /\
  ((5 <= weekday t)%Z ->
     weekday (getfx_datetime t) = 4%Z /\
     (timestamp_us (getfx_datetime t) < timestamp_us t)%Z /\
     (timestamp_us t - timestamp_us (getfx_datetime t) < (2 * 86400 + 1) * 1000000)%Z).
Proof.
  intros (Hh & Hm & Hs & Hu).
  assert (Hw : forall o, (0 <= (o + 6) mod 7 < 7)%Z /\ (o + 6 = 7 * ((o + 6) / 7) + (o + 6) mod 7)%Z)
    by (intro o; split; [apply Z.mod_pos_bound; lia | apply Z.div_mod; lia]).
  assert (Hf : forall o, (((o - ((o + 6) mod 7 - 4)) + 6) mod 7 = 4)%Z).
  { intro o. destruct (Hw o) as [_ Ho].
    replace (o - ((o + 6) mod 7 - 4) + 6)%Z with (4 + ((o + 6) / 7) * 7)%Z by lia.
    rewrite Z.mod_add by lia. reflexivity. }
  unfold getfx_datetime. destruct (Z.leb_spec 5 (weekday t)) as [H5|H5].
  - unfold weekday in *. cbn [ordinal hour minute second microsecond].
    rewrite Hf. split; [lia|]. split; [lia|]. intros _. split; [reflexivity|].
    unfold timestamp_us. cbn [ordinal hour minute second microsecond].
    destruct (Hw (ordinal t)) as [Hb _]. lia.
  - split; [exact H5|]. split; [reflexivity | lia].
Qed.

Lemma forex_lookup_time_witness :
  valid_time (mk_datetime 738003 10 0 0 0) /\
  getfx_datetime (mk_datetime 738003 10 0 0 0) = mk_datetime 738001 23 59 59 0 /\
  (weekday (getfx_datetime (mk_datetime 738003 10 0 0 0)) < 5)%Z.
Proof.
  assert (Hv : valid_time (mk_datetime 738003 10 0 0 0))
    by (unfold valid_time; cbn; lia).
  split; [exact Hv|]. split; [vm_compute; reflexivity|].
  exact (proj1 (forex_lookup_time _ Hv)).
Defined.

(** X15: [get_historical_forex_data] always returns [None]: invalid input
    is rejected with a ValueError, and valid input reaches [yf.download],
    where [yf] is not bound (its import is commented out), so a NameError
    is raised and caught. *)
Theorem historical_forex_unreachable (strptime_ok : string -> bool) (frame : Type)
    (yf_download : string -> string -> string -> frame) (frame_empty : frame -> bool)
    (rename_adj_close : frame -> frame) (pair start_date end_date : string) :
  get_historical_forex_data strptime_ok frame yf_download frame_empty rename_adj_close
    pair start_date end_date = None /\
  (ends_with "=X" pair = true -> strptime_ok start_date = true -> strptime_ok end_date = true ->
   historical_body strptime_ok frame yf_download frame_empty rename_adj_close
     pair start_date end_date = inl (NameError "yf")).
Proof.
  assert (Hyf : in_list "yf" forex_date_globals = false) by reflexivity.
  unfold get_historical_forex_data, historical_body. rewrite Hyf.
  split.
  - destruct (ends_with "=X" pair), (strptime_ok start_date), (strptime_ok end_date);
      reflexivity.
  - intros -> -> ->. reflexivity.
Qed.

Lemma historical_forex_unreachable_witness :
  ends_with "=X" "GBPEUR=X" = true /\
  historical_body (fun _ => true) unit (fun _ _ _ => tt) (fun _ => false) (fun d => d)
    "GBPEUR=X" "2023-01-01" "2023-12-31" = inl (NameError "yf").
Proof.
  split; [reflexivity|].
  apply (historical_forex_unreachable (fun _ => true) unit (fun _ _ _ => tt)
           (fun _ => false) (fun d => d) "GBPEUR=X" "2023-01-01" "2023-12-31");
    reflexivity.
Defined.

(** ** The purchase cost column and incremental runs *)

Lemma digit_char_not_paren (k : Z) : (0 <= k < 10)%Z -> digit_char k <> "("%char.
Proof.
  intro Hk.
  assert (H : (k = 0 \/ k = 1 \/ k = 2 \/ k = 3 \/ k = 4 \/ k = 5 \/ k = 6 \/ k = 7 \/
               k = 8 \/ k = 9)%Z) by lia.
  repeat destruct H as [->|H]; [..|subst k]; vm_compute; discriminate.
Qed.

Lemma z_digits_head (fuel : nat) :
  forall n acc,
  (exists c s, acc = String c s /\ c <> "("%char) ->
  exists c s, z_digits fuel n acc = String c s /\ c <> "("%char.
Proof.
  induction fuel as [|f IH]; intros n acc Hacc; [exact Hacc|].
  assert (Hd : exists c s, String (digit_char (n mod 10)) acc = String c s /\ c <> "("%char).
  { do 2 eexists. split; [reflexivity|]. apply digit_char_not_paren, Z.mod_pos_bound. lia. }
  cbn [z_digits]. destruct (n <? 10)%Z; [exact Hd | apply IH, Hd].
Qed.

Lemma z_to_string_head (n : Z) :
  exists c s, z_to_string n = String c s /\ c <> "("%char.
Proof.
  unfold z_to_string. cbn [z_digits].
  assert (Hd : exists c s, String (digit_char (n mod 10)) EmptyString = String c s /\
                           c <> "("%char).
  { do 2 eexists. split; [reflexivity|]. apply digit_char_not_paren, Z.mod_pos_bound. lia. }
  destruct (n <? 10)%Z; [exact Hd | apply z_digits_head, Hd].
Qed.

Lemma fmt_eur_head (x : Q) : String.get 0 (fmt_eur x) <> Some "("%char.
Proof.
  unfold fmt_eur, format_fixed.
  destruct (Qlt_bool x 0).
  - cbn. discriminate.
  - destruct (z_to_string_head (Z.abs (scaled_digits 2 x) / 10 ^ Z.of_nat 2))
      as (c & s & Hc & Hn).
    cbn [append]. rewrite Hc. cbn [append replace_dot String.get].
    destruct (Ascii.eqb c "."); [discriminate|].
    intro H. injection H as H. contradiction.
Qed.

(** X17: in the purchase cost column of a sale the figure in parentheses
    is the one not applied: the column starts with '(' exactly when the
    deemed acquisition cost exceeds purchase cost plus fee and is the
    applied cost; otherwise purchase cost plus fee is applied. *)
Theorem cost_column_marks_unused (queue q' : list purchase) (r : row) (s : sale) :
  process_sell queue r = (q', s) ->
  (String.get 0 (combined_str s) = Some "("%char /\
   applicable_cost s = deemed_acq_cost s /\ cost_plus_fee s < deemed_acq_cost s) \/
  (String.get 0 (combined_str s) <> Some "("%char /\
   applicable_cost s = cost_plus_fee s /\ deemed_acq_cost s <= cost_plus_fee s).
Proof.
  unfold process_sell. intro H. injection H as _ <-.
  cbn [combined_str applicable_cost deemed_acq_cost cost_plus_fee]. unfold py_max.
  match goal with |- context [Qlt_bool ?a ?b] => destruct (Qlt_bool a b) eqn:E end.
  - left. split; [reflexivity|]. split; [reflexivity | apply Qlt_bool_iff, E].
  - right. split; [|split; [reflexivity | apply Qlt_bool_false, E]].
    pose proof (fmt_eur_nonempty (purchase_cost (fifo_match (amount_numeric r) queue))) as Hne.
    pose proof (fmt_eur_head (purchase_cost (fifo_match (amount_numeric r) queue))) as Hh.
    destruct (fmt_eur (purchase_cost (fifo_match (amount_numeric r) queue))); [contradiction|].
    exact Hh.
Qed.

Lemma cost_column_marks_unused_witness :
  exists q' s, process_sell [mk_purchase 1 1] (sell 1 1000 0) = (q', s) /\
  ((String.get 0 (combined_str s) = Some "("%char /\
    applicable_cost s = deemed_acq_cost s /\ cost_plus_fee s < deemed_acq_cost s) \/
   (String.get 0 (combined_str s) <> Some "("%char /\
    applicable_cost s = cost_plus_fee s /\ deemed_acq_cost s <= cost_plus_fee s)).
Proof.
  do 2 eexists. split; [vm_compute; reflexivity|].
  exact (cost_column_marks_unused [mk_purchase 1 1] _ (sell 1 1000 0) _ eq_refl).
Defined.

Lemma laskuri_loop_app (rows1 : list row) :
  forall queue rows2,
  laskuri_loop queue (rows1 ++ rows2) =
    (fst (laskuri_loop queue rows1) ++
       fst (laskuri_loop (snd (laskuri_loop queue rows1)) rows2),
     snd (laskuri_loop (snd (laskuri_loop queue rows1)) rows2)).
Proof.
  induction rows1 as [|r rs IH]; intros queue rows2.
  - cbn [app laskuri_loop fst snd]. destruct (laskuri_loop queue rows2); reflexivity.
  - cbn [app laskuri_loop]. destruct (process_row queue r) as [q1 o].
    rewrite IH. destruct (laskuri_loop q1 rs) as [os qf]. reflexivity.
Qed.

Lemma currency_remaining_from_app (rows1 : list row) :
  forall c rows2,
  currency_remaining_from c (rows1 ++ rows2) =
    currency_remaining_from c rows1 ++
    currency_remaining_from (last (currency_remaining_from c rows1) c) rows2.
Proof.
  induction rows1 as [|r rs IH]; intros c rows2; [reflexivity|].
  cbn [app currency_remaining_from]. rewrite IH, last_cons_default. reflexivity.
Qed.

(** X18: the engine processes a history incrementally: running it on
    [rows1 ++ rows2] gives the sales of [rows1] followed by those of
    [rows2] run from the purchase queue [rows1] leaves, and the balances of
    [rows1] followed by those of [rows2] counted from the last balance of
    [rows1]. *)
Theorem incremental_run (rows1 rows2 : list row) :
  run_rows (rows1 ++ rows2) =
    (fst (run_rows rows1) ++ fst (laskuri_loop (snd (run_rows rows1)) rows2),
     snd (laskuri_loop (snd (run_rows rows1)) rows2)) /\
  currency_remaining_list (rows1 ++ rows2) =
    currency_remaining_list rows1 ++
    currency_remaining_from (last (currency_remaining_list rows1) 0) rows2.
Proof.
  unfold run_rows, currency_remaining_list.
  split; [apply laskuri_loop_app | apply currency_remaining_from_app].
Qed.

(** ** csv_to_xlsx_for_laskuri *)

Lemma append_rows_rows (rows : list (list string)) :
  forall m, map fst (append_rows m rows) =
            map (fun i => (m + Z.of_nat i)%Z) (seq 1 (List.length rows)).
Proof.
  induction rows as [|r rs IH]; intro m; [reflexivity|].
  cbn [append_rows map fst List.length seq]. rewrite IH, <- (seq_shift (List.length rs) 1), map_map.
  apply f_equal2; [lia|]. apply map_ext. intro i. lia.
Qed.

Lemma xlsx_fold_max (rows : list (list string)) :
  Forall (fun r => r <> []) rows ->
  forall c acc, (c <= acc)%Z ->
  fold_left max_row_step (append_rows c rows) acc = Z.max acc (c + Z.of_nat (List.length rows)).
Proof.
  induction rows as [|r rs IH]; intros Hne c acc Hc.
  - cbn. lia.
  - inversion Hne as [|? ? Hr Hrs]; subst.
    cbn [append_rows fold_left]. unfold max_row_step at 2; cbn [fst snd].
    destruct r as [|x xs]; [contradiction|].
    rewrite (IH Hrs (c + 1)%Z (Z.max acc (c + 1))) by lia.
    cbn [List.length]. lia.
Qed.

(** X19: openpyxl's [append] starts below row [k = max(m, 13)], where [m]
    is the template's last used row: the data rows land on rows
    [k+1 .. k+n].  When every data row holds a value, the last row is
    [k+n] and the SUMIF formula of L3 ranges over rows 16 to [k+n]; so all
    data rows lie inside the summed range exactly when there are none or
    [m] is at least 15. *)
Theorem sumif_covers_data (template_max_row : Z) (rows : list (list string)) :
  Forall (fun r => r <> []) rows ->
  map fst (append_rows (rows_before_append template_max_row) rows) =
    map (fun i => (Z.max template_max_row 13 + Z.of_nat i)%Z) (seq 1 (List.length rows)) /\
  xlsx_last_row template_max_row rows
    = (Z.max template_max_row 13 + Z.of_nat (List.length rows))%Z /\
  (Forall (fun i => (16 <= i <= xlsx_last_row template_max_row rows)%Z)
          (map fst (append_rows (rows_before_append template_max_row) rows)) <->
   rows = [] \/ (15 <= template_max_row)%Z).
Proof.
  intro Hne.
  assert (Hb : rows_before_append template_max_row = Z.max template_max_row 13)
    by (unfold rows_before_append; lia).
  assert (Hl : xlsx_last_row template_max_row rows
               = (Z.max template_max_row 13 + Z.of_nat (List.length rows))%Z).
  { unfold xlsx_last_row. rewrite Hb, xlsx_fold_max by (exact Hne || lia). lia. }
  rewrite Hb, append_rows_rows, Hl. split; [reflexivity|]. split; [reflexivity|].
  rewrite Forall_map, Forall_forall. split.
  - intro H. destruct rows as [|r rs]; [left; reflexivity|right].
    specialize (H 1%nat). cbn [List.length seq] in H. specialize (H (or_introl eq_refl)). lia.
  - intros [->|H] i Hi; [destruct Hi|]. apply in_seq in Hi. lia.
Qed.

Lemma sumif_covers_data_witness :
  Forall (fun r => r <> []) [["a"]; ["b"]]%string /\
  Forall (fun i => (16 <= i <= xlsx_last_row 15 [["a"]; ["b"]]%string)%Z)
         (map fst (append_rows (rows_before_append 15) [["a"]; ["b"]]%string)) /\
  Forall (fun r => r <> []) [["a"]]%string /\
  map fst (append_rows (rows_before_append 5) [["a"]]%string) = cons 14%Z nil /\
  ~ Forall (fun i => (16 <= i <= xlsx_last_row 5 [["a"]]%string)%Z)
           (map fst (append_rows (rows_before_append 5) [["a"]]%string)).
Proof.
  assert (H2 : Forall (fun r => r <> []) [["a"]; ["b"]]%string)
    by (repeat constructor; discriminate).
  assert (H1 : Forall (fun r => r <> []) [["a"]]%string)
    by (repeat constructor; discriminate).
  split; [exact H2|]. split.
  - apply (proj2 (proj2 (proj2 (sumif_covers_data 15 [["a"]; ["b"]]%string H2)))). right. lia.
  - split; [exact H1|]. split; [vm_compute; reflexivity|].
    intro H. apply (proj2 (proj2 (sumif_covers_data 5 [["a"]]%string H1))) in H.
    destruct H as [H|H]; [discriminate | lia].
Defined.
